(** * VW_Flash: the signed-image trailer of [lib/signature_tools.py]

    A shallow embedding of the five functions of [lib/signature_tools.py]
    ([sign_datablock], [sign_bin], [verify_bin], [build_metadata] and
    [read_bytes]) together with the pieces of the Python runtime they lean
    on: slices with negative bounds, [str.ljust], [str.encode("utf-8")],
    the lookup of a global name in the module namespace, exceptions, and the
    records handed to the [VWFlash] logger.

    The RSA / SHA-256 primitives come from PyCryptodome; they are an
    interface here (class [PKCS115]), with a small textbook instance used to
    run the functions on concrete inputs.

    Module [GUI] embeds the data side of [VW_Flash_GUI.py]. *)

From Stdlib Require Import ZArith NArith List Bool Lia.
From Stdlib Require Import Strings.String Strings.Ascii Strings.Byte.
From Stdlib Require Import QArith.QArith_base Sorting.Sorted.
From stdpp Require Import base option list gmap strings.

Close Scope Q_scope.

Import ListNotations.
Local Open Scope string_scope.
Local Open Scope list_scope.
Local Open Scope Z_scope.

(* ===================================================================== *)
(** ** Exceptions and the two effect layers *)
(* ===================================================================== *)

(** The exceptions that the modelled code can raise. *)
Inductive exn : Type :=
| NameError (name : string)
| TypeError
| ValueError
| FileNotFoundError (path : string)
| UnicodeEncodeError.

(** A Python call either returns a value or raises. *)
Inductive result (A : Type) : Type :=
| Ok (a : A)
| Raise (e : exn).
Arguments Ok {A} a.
Arguments Raise {A} e.

Definition bind_result {A B} (r : result A) (k : A -> result B) : result B :=
  match r with
  | Ok a => k a
  | Raise e => Raise e
  end.

Notation "x <-- e ;; k" := (bind_result e (fun x => k))
  (at level 100, e at next level, right associativity, only parsing).

(** Severity of a logging call. *)
Inductive level : Type := INFO | WARNING | CRITICAL.

(** What is handed to the logger: a literal message, or [str(b)] of a
    bytes object. *)
Inductive message : Type :=
| Text (s : string)
| StrOfBytes (b : list byte).

Definition log_record : Type := level * message.

(** A call that logs: its outcome and the records it emitted, oldest
    first.  Records emitted before an exception stay emitted. *)
Definition Logged (A : Type) : Type := result A * list log_record.

Definition ret_logged {A} (a : A) : Logged A := (Ok a, []).

Definition bind_logged {A B} (m : Logged A) (k : A -> Logged B) : Logged B :=
  match m with
  | (Ok a, l1) => let '(r, l2) := k a in (r, l1 ++ l2)
  | (Raise e, l1) => (Raise e, l1)
  end.

Definition lift_result {A} (r : result A) : Logged A := (r, []).

Definition emit (lv : level) (m : message) : Logged unit := (Ok tt, [(lv, m)]).

Notation "x <== e ;; k" := (bind_logged e (fun x => k))
  (at level 100, e at next level, right associativity, only parsing).
Notation "e ;;; k" := (bind_logged e (fun _ => k))
  (at level 100, right associativity, only parsing).

(* ===================================================================== *)
(** ** Python runtime: bytes, text, slices, padding, UTF-8 *)
(* ===================================================================== *)

#[global] Instance byte_eq_decision : EqDecision byte := Byte.byte_eq_dec.

(** A [bytes] literal [b'...'] with ASCII content. *)
Definition bytes_lit (s : string) : list byte := list_byte_of_string s.

(** A [str] is a sequence of Unicode code points. *)
Definition codepoint : Type := N.
Definition text : Type := list codepoint.

(** A [str] literal with ASCII content. *)
Definition text_lit (s : string) : text :=
  map (fun b => Byte.to_N b) (list_byte_of_string s).

(** Bound of a slice: negative counts from the end, then clamped to
    [0 .. len]. *)
Definition slice_bound (len i : Z) : Z :=
  if i <? 0 then Z.max 0 (len + i) else Z.min i len.

(** [l[start:stop]] with step 1; [None] is an omitted bound. *)
Definition py_slice {A} (l : list A) (start stop : option Z) : list A :=
  let len := Z.of_nat (length l) in
  let lo := match start with None => 0 | Some i => slice_bound len i end in
  let hi := match stop with None => len | Some i => slice_bound len i end in
  take (Z.to_nat (hi - lo)) (drop (Z.to_nat lo) l).

(** [s.ljust(width, fill)]. *)
Definition ljust (s : text) (width : nat) (fill : codepoint) : text :=
  s ++ replicate (width - length s)%nat fill.

Definition byte_of_N (n : N) : byte :=
  match Byte.of_N n with Some b => b | None => x00 end.

(** UTF-8 encoding of one code point, strict error handler: a lone
    surrogate cannot be encoded.  (Numbers above U+10FFFF are no code
    points; they are refused as well.) *)
Definition utf8_codepoint (c : codepoint) : result (list byte) :=
  (if c <? 0x80 then Ok [byte_of_N c]
   else if c <? 0x800 then
     Ok [byte_of_N (N.lor 0xC0 (N.shiftr c 6));
         byte_of_N (N.lor 0x80 (N.land c 0x3F))]
   else if (0xD800 <=? c) && (c <=? 0xDFFF) then Raise UnicodeEncodeError
   else if c <? 0x10000 then
     Ok [byte_of_N (N.lor 0xE0 (N.shiftr c 12));
         byte_of_N (N.lor 0x80 (N.land (N.shiftr c 6) 0x3F));
         byte_of_N (N.lor 0x80 (N.land c 0x3F))]
   else if c <? 0x110000 then
     Ok [byte_of_N (N.lor 0xF0 (N.shiftr c 18));
         byte_of_N (N.lor 0x80 (N.land (N.shiftr c 12) 0x3F));
         byte_of_N (N.lor 0x80 (N.land (N.shiftr c 6) 0x3F));
         byte_of_N (N.lor 0x80 (N.land c 0x3F))]
   else Raise UnicodeEncodeError)%N.

(** [s.encode("utf-8")]. *)
Fixpoint encode_utf8 (s : text) : result (list byte) :=
  match s with
  | [] => Ok []
  | c :: s' =>
      b <-- utf8_codepoint c ;;
      bs <-- encode_utf8 s' ;;
      Ok (b ++ bs)
  end.

(** Truth value of an optional path argument: [None] and [""] are false. *)
Definition truthy (o : option string) : bool :=
  match o with
  | Some (String _ _) => true
  | _ => false
  end.

(* ===================================================================== *)
(** ** [build_metadata] *)
(* ===================================================================== *)

Definition SPACE : codepoint := 32%N.

(** [build_metadata(boxcode, notes)], line 51. *)
Definition build_metadata (boxcode notes : text) : result (list byte) :=
  b <-- encode_utf8 (ljust (py_slice boxcode (Some 0) (Some 15)) 15 SPACE) ;;
  n <-- encode_utf8 (ljust (py_slice notes (Some 0) (Some 70)) 70 SPACE) ;;
  Ok (bytes_lit "METADATA:" ++ b ++ n).

(* ===================================================================== *)
(** ** PyCryptodome: SHA-256 and PKCS#1 v1.5 over RSA *)
(* ===================================================================== *)

(** The operations of [Crypto.Hash.SHA256], [Crypto.PublicKey.RSA] and
    [Crypto.Signature.pkcs1_15] that the module calls.  [RSA_import_key]
    raises on bytes that are no key; [pkcs115_sign] raises on a key with no
    private part; [pkcs115_verify] returns when the signature is valid and
    raises otherwise. *)
Class PKCS115 : Type := {
  rsa_key : Type;
  digest : Type;
  SHA256_new : list byte -> digest;
  RSA_import_key : list byte -> result rsa_key;
  pkcs115_sign : rsa_key -> digest -> result (list byte);
  pkcs115_verify : rsa_key -> digest -> list byte -> result unit
}.

(* ===================================================================== *)
(** ** Files and the module namespace *)
(* ===================================================================== *)

(** [open(path, 'rb').read()] and [Path(path).read_bytes()] over a file
    system given as a finite map from paths to contents. *)
Definition read_file (fs : gmap string (list byte)) (path : string)
  : result (list byte) :=
  match fs !! path with
  | Some content => Ok content
  | None => Raise (FileNotFoundError path)
  end.

(** The objects a global name can be bound to. *)
Inductive pyobj : Type :=
| PyNone
| PyBytes (b : list byte)
| PyStr (s : string)
| PyModule (name : string)
| PyClass (name : string)
| PyFunction (name : string)
| PyLogger (name : string).

(** The global namespace of [lib/signature_tools.py] once the module has
    been executed: the names every module gets, the six imports (lines
    1-6), [logger] (line 8) and the five functions. *)
Definition module_globals : gmap string pyobj :=
  list_to_map
    [ ("__name__", PyStr "lib.signature_tools");
      ("__doc__", PyNone);
      ("__package__", PyStr "lib");
      ("__loader__", PyClass "SourceFileLoader");
      ("__spec__", PyClass "ModuleSpec");
      ("__file__", PyStr "lib/signature_tools.py");
      ("__cached__", PyStr "lib/__pycache__/signature_tools.pyc");
      ("__builtins__", PyModule "builtins");
      ("logging", PyModule "logging");
      ("RSA", PyModule "Crypto.PublicKey.RSA");
      ("Path", PyClass "pathlib.Path");
      ("PKCS115_SigScheme", PyClass "Crypto.Signature.pkcs1_15.PKCS115_SigScheme");
      ("SHA256", PyModule "Crypto.Hash.SHA256");
      ("pprint", PyFunction "pprint.pprint");
      ("logger", PyLogger "VWFlash");
      ("sign_datablock", PyFunction "sign_datablock");
      ("sign_bin", PyFunction "sign_bin");
      ("verify_bin", PyFunction "verify_bin");
      ("build_metadata", PyFunction "build_metadata");
      ("read_bytes", PyFunction "read_bytes") ].

(** The functions and constants of the [builtins] module. *)
Definition builtin_functions : list string :=
  [ "abs"; "aiter"; "all"; "anext"; "any"; "ascii"; "bin"; "bool";
    "breakpoint"; "bytearray"; "bytes"; "callable"; "chr"; "classmethod";
    "compile"; "complex"; "copyright"; "credits"; "delattr"; "dict"; "dir";
    "divmod"; "enumerate"; "eval"; "exec"; "exit"; "filter"; "float";
    "format"; "frozenset"; "getattr"; "globals"; "hasattr"; "hash"; "help";
    "hex"; "id"; "input"; "int"; "isinstance"; "issubclass"; "iter"; "len";
    "license"; "list"; "locals"; "map"; "max"; "memoryview"; "min"; "next";
    "object"; "oct"; "open"; "ord"; "pow"; "print"; "property"; "quit";
    "range"; "repr"; "reversed"; "round"; "set"; "setattr"; "slice";
    "sorted"; "staticmethod"; "str"; "sum"; "super"; "tuple"; "type";
    "vars"; "zip"; "__import__"; "__build_class__";
    "True"; "False"; "None"; "NotImplemented"; "Ellipsis"; "__debug__";
    "__name__"; "__doc__"; "__package__"; "__loader__"; "__spec__" ].

(** The exception and warning classes of the [builtins] module. *)
Definition builtin_exceptions : list string :=
  [ "BaseException"; "BaseExceptionGroup"; "Exception"; "ExceptionGroup";
    "GeneratorExit"; "KeyboardInterrupt"; "SystemExit"; "ArithmeticError";
    "AssertionError"; "AttributeError"; "BlockingIOError";
    "BrokenPipeError"; "BufferError"; "ChildProcessError";
    "ConnectionAbortedError"; "ConnectionError"; "ConnectionRefusedError";
    "ConnectionResetError"; "EOFError"; "EnvironmentError";
    "FileExistsError"; "FileNotFoundError"; "FloatingPointError";
    "IOError"; "ImportError"; "IndentationError"; "IndexError";
    "InterruptedError"; "IsADirectoryError"; "KeyError"; "LookupError";
    "MemoryError"; "ModuleNotFoundError"; "NameError";
    "NotADirectoryError"; "NotImplementedError"; "OSError";
    "OverflowError"; "PermissionError"; "ProcessLookupError";
    "RecursionError"; "ReferenceError"; "RuntimeError";
    "StopAsyncIteration"; "StopIteration"; "SyntaxError"; "SystemError";
    "TabError"; "TimeoutError"; "TypeError"; "UnboundLocalError";
    "UnicodeDecodeError"; "UnicodeEncodeError"; "UnicodeError";
    "UnicodeTranslateError"; "ValueError"; "ZeroDivisionError";
    "BytesWarning"; "DeprecationWarning"; "EncodingWarning";
    "FutureWarning"; "ImportWarning"; "PendingDeprecationWarning";
    "ResourceWarning"; "RuntimeWarning"; "SyntaxWarning";
    "UnicodeWarning"; "UserWarning"; "Warning" ].

Definition builtins : gmap string pyobj :=
  list_to_map
    (map (fun n => (n, PyFunction n)) builtin_functions ++
     map (fun n => (n, PyClass n)) builtin_exceptions).

(** Reading a name that is not local to the running function: the module's
    globals first, then [builtins], else [NameError]. *)
Definition load_global (g : gmap string pyobj) (name : string) : result pyobj :=
  match g !! name with
  | Some v => Ok v
  | None =>
      match builtins !! name with
      | Some v => Ok v
      | None => Raise (NameError name)
      end
  end.

(** Truth value of an object. *)
Definition obj_truthy (a : pyobj) : bool :=
  match a with
  | PyNone => false
  | PyBytes [] => false
  | PyStr EmptyString => false
  | _ => true
  end.

(** [a + b] where [b] is a bytes object. *)
Definition py_add_bytes (a : pyobj) (b : list byte) : result pyobj :=
  match a with
  | PyBytes x => Ok (PyBytes (x ++ b))
  | _ => Raise TypeError
  end.

Definition VW_FLASH_PUB : string := "./data/VW_Flash.pub".

(* ===================================================================== *)
(** ** The functions of [lib/signature_tools.py] *)
(* ===================================================================== *)

Section SignatureTools.

Context `{crypto : PKCS115}.

(** [SHA256.new(data)] on an arbitrary object: the hash of no data when
    [data] is false, of [data] when it is bytes; nothing else can be
    hashed. *)
Definition SHA256_new_obj (data : pyobj) : result digest :=
  if obj_truthy data then
    match data with
    | PyBytes b => Ok (SHA256_new b)
    | _ => Raise TypeError
    end
  else Ok (SHA256_new []).

(** [sign_datablock(bin_file, private_key_path)], lines 10-17. *)
Definition sign_datablock (fs : gmap string (list byte))
    (bin_file : pyobj) (private_key_path : string) : result (list byte) :=
  private_key <-- read_file fs private_key_path ;;
  the_hash <-- SHA256_new_obj bin_file ;;
  key <-- RSA_import_key private_key ;;
  pkcs115_sign key the_hash.

(** [sign_bin(bin_file, private_key_path, boxcode, notes)], lines 21-33.
    [g] is the module's global namespace at the time of the call: the name
    [input_bin] is neither a parameter nor a local of the function, so each
    read of it is a lookup in [g].  The module's own functions are called
    directly: [g] is taken to bind their names as the module does. *)
Definition sign_bin (g : gmap string pyobj) (fs : gmap string (list byte))
    (bin_file : list byte) (private_key_path : option string)
    (boxcode notes : text) : result pyobj :=
  metadata <-- build_metadata boxcode notes ;;
  let bin_file := bin_file ++ metadata in
  input_bin <-- load_global g "input_bin" ;;
  signature1 <-- sign_datablock fs input_bin VW_FLASH_PUB ;;
  signature2 <--
    (if truthy private_key_path then
       input_bin <-- load_global g "input_bin" ;;
       sign_datablock fs input_bin (default "" private_key_path)
     else Ok signature1) ;;
  input_bin <-- load_global g "input_bin" ;;
  partial <-- py_add_bytes input_bin signature1 ;;
  signed_file <-- py_add_bytes partial signature2 ;;
  Ok signed_file.

(** [verify_bin(bin_file, signature, public_key_path)], lines 37-49: the
    [try] covers the call of [verify] only. *)
Definition verify_bin (fs : gmap string (list byte))
    (bin_file signature : list byte) (public_key_path : string) : result bool :=
  public_key <-- read_file fs public_key_path ;;
  let the_hash := SHA256_new bin_file in
  key <-- RSA_import_key public_key ;;
  match pkcs115_verify key the_hash signature with
  | Ok _ => Ok true
  | Raise _ => Ok false
  end.

(** The test of line 60 on the file content. *)
Definition has_sig_block (bin_data : list byte) : bool :=
  let sig_block := py_slice bin_data (Some (-350)) None in
  bool_decide (py_slice sig_block (Some 0) (Some 9) = bytes_lit "METADATA:").

(** [read_bytes(file_path, public_key_file)], lines 55-91. *)
Definition read_bytes (fs : gmap string (list byte))
    (file_path : string) (public_key_file : option string)
  : Logged (list byte) :=
  bin_data <== lift_result (read_file fs file_path) ;;
  let sig_block := py_slice bin_data (Some (-350)) None in
  if bool_decide (py_slice sig_block (Some 0) (Some 9) = bytes_lit "METADATA:")
  then
    emit WARNING (Text "Found signature block in bin file, validating") ;;;
    emit INFO (StrOfBytes (py_slice sig_block (Some 0) (Some (-256)))) ;;;
    let signature1 := py_slice sig_block (Some (-256)) (Some (-128)) in
    let signature2 := py_slice sig_block (Some (-128)) None in
    ok1 <== lift_result
      (verify_bin fs (py_slice bin_data (Some 0) (Some (-256)))
                  signature1 VW_FLASH_PUB) ;;
    (if ok1 : bool then emit WARNING (Text "First signature validated")
     else emit CRITICAL (Text "First signature failed!")) ;;;
    (if bool_decide (signature1 = signature2) then
       emit WARNING (Text "No secondary signature found")
     else if truthy public_key_file then
       ok2 <== lift_result
         (verify_bin fs (py_slice bin_data (Some 0) (Some (-256)))
                     signature2 (default "" public_key_file)) ;;
       if ok2 : bool then emit WARNING (Text "Second signature validated")
       else emit CRITICAL (Text "Second signature failed!")
     else
       emit INFO (Text
         "File contains additional signature, but no public key arg provided")) ;;;
    let bin_data := py_slice bin_data (Some 0) (Some (-350)) in
    ret_logged bin_data
  else
    ret_logged bin_data.

End SignatureTools.

(* ===================================================================== *)
(** ** Composing, storing and loading an image *)
(* ===================================================================== *)

(** What a caller does to check a round trip: compose with [sign_bin],
    write the result to [image_path], load it back with [read_bytes]. *)
Definition compose_store_load `{crypto : PKCS115}
    (g : gmap string pyobj) (fs : gmap string (list byte))
    (payload : list byte) (private_key_path : option string)
    (boxcode notes : text) (image_path : string)
    (public_key_file : option string) : Logged (list byte) :=
  signed_file <== lift_result
    (sign_bin g fs payload private_key_path boxcode notes) ;;
  match signed_file with
  | PyBytes image => read_bytes (<[image_path := image]> fs) image_path public_key_file
  | _ => lift_result (Raise TypeError)
  end.

(* ===================================================================== *)
(** ** A small instance of the primitives, to run the code *)
(* ===================================================================== *)

(** Textbook RSA on 16-bit moduli with a polynomial checksum as digest.
    It has the shape of the PyCryptodome calls (signatures of 128 bytes,
    signing refused without a private exponent, verification raising on
    any mismatch or on a signature of the wrong size), not their
    strength. *)
Module Textbook.

Record key : Type := {
  modulus : Z;
  public_exponent : Z;
  private_exponent : option Z
}.

Definition checksum (b : list byte) : Z :=
  fold_left (fun acc x => (acc * 31 + Z.of_N (Byte.to_N x) + 7) mod 65521) b 1.

Definition modpow (b e n : Z) : Z :=
  match e with
  | Zpos p => Pos.iter (fun acc => (acc * b) mod n) (1 mod n) p
  | _ => 1 mod n
  end.

Definition be16 (n : Z) : list byte :=
  [byte_of_N (Z.to_N (n / 256 mod 256)); byte_of_N (Z.to_N (n mod 256))].

Definition of_be (b : list byte) : Z :=
  fold_left (fun acc x => acc * 256 + Z.of_N (Byte.to_N x)) b 0.

(** Key bytes: a tag ([x00] public, [x01] private), then modulus and
    exponents, two bytes each. *)
Definition export_public (n e : Z) : list byte := x00 :: be16 n ++ be16 e.
Definition export_private (n e d : Z) : list byte :=
  x01 :: be16 n ++ be16 e ++ be16 d.

Definition import_key (b : list byte) : result key :=
  match b with
  | [x00; n1; n0; e1; e0] =>
      Ok {| modulus := of_be [n1; n0]; public_exponent := of_be [e1; e0];
            private_exponent := None |}
  | [x01; n1; n0; e1; e0; d1; d0] =>
      Ok {| modulus := of_be [n1; n0]; public_exponent := of_be [e1; e0];
            private_exponent := Some (of_be [d1; d0]) |}
  | _ => Raise ValueError
  end.

Definition sign (k : key) (h : Z) : result (list byte) :=
  match private_exponent k with
  | None => Raise TypeError
  | Some d => Ok (replicate 126 x00 ++ be16 (modpow (h mod modulus k) d (modulus k)))
  end.

Definition verify (k : key) (h : Z) (s : list byte) : result unit :=
  if negb (length s =? 128)%nat then Raise ValueError
  else if modpow (of_be s) (public_exponent k) (modulus k) =? h mod modulus k
       then Ok tt
  else Raise ValueError.

#[global] Instance primitives : PKCS115 := {|
  rsa_key := key;
  digest := Z;
  SHA256_new := checksum;
  RSA_import_key := import_key;
  pkcs115_sign := sign;
  pkcs115_verify := verify
|}.

(** Two key pairs: A is (3233, 17, 2753), B is (2773, 17, 157). *)
Definition pub_A : list byte := export_public 3233 17.
Definition priv_A : list byte := export_private 3233 17 2753.
Definition pub_B : list byte := export_public 2773 17.
Definition priv_B : list byte := export_private 2773 17 157.

(** A file system with the trust anchor of the tool and B's key files. *)
Definition fs_keys : gmap string (list byte) :=
  <["./data/VW_Flash.pub" := pub_A]>
  (<["B.pub" := pub_B]> (<["B.pem" := priv_B]> (<["A.pem" := priv_A]> ∅))).

(** The same, with A's private key stored under the trust-anchor path, as
    signing with that path needs. *)
Definition fs_signing : gmap string (list byte) :=
  <["./data/VW_Flash.pub" := priv_A]> fs_keys.

(** A namespace in which a caller has bound [input_bin] by hand. *)
Definition patched_globals (data : list byte) : gmap string pyobj :=
  <["input_bin" := PyBytes data]> module_globals.

(** Images laid out as [read_bytes] expects them: payload, metadata, two
    slots of 128 bytes. *)
Definition payload : list byte := [x01; x02; x03; x04].

Definition metadata : list byte :=
  match build_metadata (text_lit "04E906016HA") (text_lit "test") with
  | Ok m => m
  | Raise _ => []
  end.

Definition signature_of (content : list byte) (private_key : list byte)
  : list byte :=
  match (k <-- import_key private_key ;; sign k (checksum content)) with
  | Ok s => s
  | Raise _ => []
  end.

Definition single_signed : list byte :=
  payload ++ metadata ++
  signature_of (payload ++ metadata) priv_A ++
  signature_of (payload ++ metadata) priv_A.

Definition co_signed : list byte :=
  payload ++ metadata ++
  signature_of (payload ++ metadata) priv_A ++
  signature_of (payload ++ metadata) priv_B.

(** [co_signed] with the first payload byte changed after signing. *)
Definition tampered : list byte :=
  [xff; x02; x03; x04] ++ metadata ++
  signature_of (payload ++ metadata) priv_A ++
  signature_of (payload ++ metadata) priv_B.

(** Streams that carry no trailer, and the bare tag. *)
Definition plain : list byte := bytes_lit "no trailer here".
Definition bare_tag : list byte := bytes_lit "METADATA:".

Definition fs_with (image : list byte) : gmap string (list byte) :=
  <["fw.bin" := image]> fs_keys.

End Textbook.

(* ===================================================================== *)
(** ** Vocabulary of the statements *)
(* ===================================================================== *)

(** Text whose characters all encode to one byte. *)
Definition is_ascii (s : text) : Prop := Forall (fun c => (c < 128)%N) s.

(** The last 350 bytes of a stream, all of it when it is shorter. *)
Definition last_350 (bin_data : list byte) : list byte :=
  drop (length bin_data - 350) bin_data.

(** The stream ends in a block that begins with the tag. *)
Definition tagged (bin_data : list byte) : Prop :=
  bytes_lit "METADATA:" `prefix_of` last_350 bin_data.

(** The two signature slots that [read_bytes] cuts out (lines 66-67) and
    the content it checks them against (lines 70 and 80). *)
Definition slot1 (bin_data : list byte) : list byte :=
  py_slice (py_slice bin_data (Some (-350)) None) (Some (-256)) (Some (-128)).
Definition slot2 (bin_data : list byte) : list byte :=
  py_slice (py_slice bin_data (Some (-350)) None) (Some (-128)) None.
Definition signed_content (bin_data : list byte) : list byte :=
  py_slice bin_data (Some 0) (Some (-256)).

(** The file at [path] exists and holds a key that [RSA.import_key]
    accepts. *)
Definition key_loads `{crypto : PKCS115}
    (fs : gmap string (list byte)) (path : string) : bool :=
  match (b <-- read_file fs path ;; RSA_import_key b) with
  | Ok _ => true
  | Raise _ => false
  end.

(** The records every load of a tagged stream starts with (lines 61-63). *)
Definition found_records (bin_data : list byte) : list log_record :=
  [ (WARNING, Text "Found signature block in bin file, validating");
    (INFO, StrOfBytes (py_slice (py_slice bin_data (Some (-350)) None)
                                (Some 0) (Some (-256)))) ].

(** The records logged after the first and the second check. *)
Definition first_record (ok : bool) : log_record :=
  if ok then (WARNING, Text "First signature validated")
  else (CRITICAL, Text "First signature failed!").

Definition second_record (ok : bool) : log_record :=
  if ok then (WARNING, Text "Second signature validated")
  else (CRITICAL, Text "Second signature failed!").

Definition no_secondary_record : log_record :=
  (WARNING, Text "No secondary signature found").

Definition unchecked_secondary_record : log_record :=
  (INFO, Text "File contains additional signature, but no public key arg provided").

(** A code point that UTF-8 can carry: below the surrogates, or above them
    and within the code space. *)
Definition encodable (c : codepoint) : Prop :=
  (c < 55296 \/ (57343 < c /\ c < 1114112))%N.

(* ===================================================================== *)
(** ** [VW_Flash_GUI.py]: interface names and start-up options *)
(* ===================================================================== *)

(** The functions of [VW_Flash_GUI.py] that compute on data: the splitting
    of an interface specifier, the enumeration of interfaces, the part of
    [MainUI.__init__] that loads, completes and stores the options, and the
    listing of the images of a folder.  The Windows registry, the list of
    serial ports, [sys.platform], the configuration file and the folder as
    the operating system shows it are inputs; the widgets are left out. *)
Module GUI.

(** Exceptions that this code can meet. *)
Inductive error : Type :=
| IndexError
| KeyError (key : text)
| TypeError
| OSError.

Inductive outcome (A : Type) : Type :=
| Returns (a : A)
| Raises (e : error).
Arguments Returns {A} a.
Arguments Raises {A} e.

Definition bind_outcome {A B} (r : outcome A) (k : A -> outcome B) : outcome B :=
  match r with
  | Returns a => k a
  | Raises e => Raises e
  end.

Notation "x <~ e ;; k" := (bind_outcome e (fun x => k))
  (at level 100, e at next level, right associativity, only parsing).

(** Calls of [logger.warning] and [logger.error]. *)
Inductive severity : Type := LogWarning | LogError.
Definition record : Type := severity * string.

(** [l[i]] on a list. *)
Definition index {A} (l : list A) (i : nat) : outcome A :=
  match l !! i with
  | Some x => Returns x
  | None => Raises IndexError
  end.

Definition UNDERSCORE : codepoint := 95%N.

Definition cons_head {A} (c : A) (parts : list (list A)) : list (list A) :=
  match parts with
  | [] => [[c]]
  | p :: rest => (c :: p) :: rest
  end.

(** [s.split(sep, maxsplit)] for a separator of one character and
    [maxsplit >= 0]: at most [maxsplit] cuts, from the left. *)
Fixpoint str_split (sep : codepoint) (maxsplit : nat) (s : text) : list text :=
  match s with
  | [] => [[]]
  | c :: s' =>
      if (c =? sep)%N then
        match maxsplit with
        | O => cons_head c (str_split sep O s')
        | S n => [] :: str_split sep n s'
        end
      else cons_head c (str_split sep maxsplit s')
  end.

(** [split_interface_name(interface_string)], lines 67-71. *)
Definition split_interface_name (interface_string : text)
  : outcome (text * option text) :=
  let parts := str_split UNDERSCORE 1 interface_string in
  interface <~ index parts 0 ;;
  interface_name <~
    (if (1 <? length parts)%nat then
       p <~ index parts 1 ;; Returns (Some p)
     else Returns None) ;;
  Returns (interface, interface_name).

(** What [winreg.QueryValueEx] can hand back: a string, a number, binary
    data, a list of strings, or nothing. *)
Inductive value : Type :=
| VNone
| VInt (n : Z)
| VStr (s : text)
| VBytes (b : list byte)
| VList (l : list text).

(** ["J2534_" + v]: only a [str] can be appended to a [str]. *)
Definition str_add (a : text) (v : value) : outcome text :=
  match v with
  | VStr s => Returns (a ++ s)
  | _ => Raises TypeError
  end.

(** [winreg.QueryValueEx(key, name)[0]] on an opened key, given as the map
    from value names to values. *)
Definition query_value (key : gmap string value) (name : string) : outcome value :=
  match key !! name with
  | Some v => Returns v
  | None => Raises OSError
  end.

(** The body of the [try] of lines 89-92 for one subkey of the base key;
    [None] is a subkey that cannot be opened. *)
Definition registry_entry (device : option (gmap string value))
  : outcome (value * text) :=
  DeviceKey <~ (match device with
                | Some key => Returns key
                | None => Raises OSError
                end) ;;
  Name <~ query_value DeviceKey "Name" ;;
  FunctionLibrary <~ query_value DeviceKey "FunctionLibrary" ;;
  specifier <~ str_add (text_lit "J2534_") FunctionLibrary ;;
  Returns (Name, specifier).

(** The loop of lines 87-96 over the subkeys, with the list built so
    far. *)
Fixpoint enumerate_devices (devices : list (option (gmap string value)))
    (interfaces : list (value * text)) : list (value * text) * list record :=
  match devices with
  | [] => (interfaces, [])
  | device :: rest =>
      match registry_entry device with
      | Returns entry => enumerate_devices rest (interfaces ++ [entry])
      | Raises _ =>
          let '(result, log) := enumerate_devices rest interfaces in
          (result,
           (LogError,
            "Found a J2534 interface, but could not enumerate the registry entry. Continuing.")
           :: log)
      end
  end.

(** [get_dlls_from_registry()], lines 74-97.  [registry] is [None] when
    the base key cannot be opened (or [winreg] is not there), else the
    subkeys of the base key in the order of [EnumKey]. *)
Definition get_dlls_from_registry
    (registry : option (list (option (gmap string value))))
  : list (value * text) * list record :=
  let interfaces := [] in
  match registry with
  | None =>
      (interfaces,
       [(LogWarning, "No J2534 DLLs found in HKLM PassThruSupport. Continuing anyway.")])
  | Some devices => enumerate_devices devices interfaces
  end.

(** [socketcan_ports()], lines 100-101. *)
Definition socketcan_ports : list (value * text) :=
  [(VStr (text_lit "SocketCAN can0"), text_lit "SocketCAN_can0")].

(** An entry of [serial.tools.list_ports.comports()]. *)
Record port_info : Type := {
  name : text;
  description : text;
  device : text
}.

(** [poll_interfaces()], lines 104-118, for the given [sys.platform],
    registry and serial ports. *)
Definition poll_interfaces (platform : string)
    (registry : option (list (option (gmap string value))))
    (comports : list port_info) : list (value * text) * list record :=
  let interfaces := [] in
  let '(interfaces, log) :=
    if bool_decide (platform = "win32") then
      let '(dlls, log) := get_dlls_from_registry registry in
      (interfaces ++ dlls, log)
    else (interfaces, []) in
  let interfaces :=
    if bool_decide (platform = "linux") then interfaces ++ socketcan_ports
    else interfaces in
  let serial_ports := comports in
  (fold_left
     (fun interfaces port =>
        interfaces ++
        [(VStr (name port ++ text_lit " : " ++ description port),
          text_lit "USBISOTP_" ++ device port)])
     serial_ports interfaces,
   log).

(** A JSON document as [json.load] returns it; a number is kept as its
    literal. *)
#[local] Set Warnings "-register-all".
Inductive json : Type :=
| JNull
| JBool (b : bool)
| JNumber (literal : string)
| JString (s : text)
| JArray (items : list json)
| JObject (members : gmap text json).

(** [gui_config.json]: absent, present but not JSON, or holding a
    document. *)
Inductive config_file : Type :=
| NoFile
| NotJson
| Json (document : json).

(** [write_config(paths)], lines 62-64: the file now holds [paths]. *)
Definition write_config (paths : json) : config_file := Json paths.

(** [o[key]], [len(o)] and [o[key] = v] on a loaded document. *)
Definition getitem (o : json) (key : text) : outcome json :=
  match o with
  | JObject members =>
      match members !! key with
      | Some v => Returns v
      | None => Raises (KeyError key)
      end
  | _ => Raises TypeError
  end.

Definition len (o : json) : outcome nat :=
  match o with
  | JString s => Returns (length s)
  | JArray items => Returns (length items)
  | JObject members => Returns (size members)
  | _ => Raises TypeError
  end.

Definition setitem (o : json) (key : text) (v : json) : outcome json :=
  match o with
  | JObject members => Returns (JObject (<[key := v]> members))
  | _ => Raises TypeError
  end.

(** The options of lines 134-141; [logs_dir] is
    [path.join(currentPath, "logs")]. *)
Definition default_options (logs_dir : text) : json :=
  JObject (list_to_map
    [ (text_lit "tune_folder", JString []);
      (text_lit "logger", JString logs_dir);
      (text_lit "interface", JString []);
      (text_lit "singlecsv", JBool false);
      (text_lit "logmode", JString (text_lit "22"));
      (text_lit "activitylevel", JString (text_lit "INFO")) ]).

(** [MainUI.__init__], lines 128-150: load the options or fall back to the
    defaults and store them, poll the interfaces, and pick the first
    interface when none is selected.  The result is [self.options], the
    configuration file as it is left, and what was logged. *)
Definition MainUI_init (logs_dir : text) (config : config_file)
    (platform : string)
    (registry : option (list (option (gmap string value))))
    (comports : list port_info) : outcome json * config_file * list record :=
  let '(options, config, log0) :=
    match config with
    | Json document => (document, config, [])
    | _ =>
        let options := default_options logs_dir in
        (options, write_config options,
         [(LogWarning, "No config file present, creating one")])
    end in
  let '(interfaces, log1) := poll_interfaces platform registry comports in
  let log := log0 ++ log1 in
  match (selected <~ getitem options (text_lit "interface") ;; len selected) with
  | Raises e => (Raises e, config, log)
  | Returns n =>
      if (n =? 0)%nat then
        if (0 <? length interfaces)%nat then
          match (first <~ index interfaces 0 ;;
                 setitem options (text_lit "interface") (JString (snd first))) with
          | Raises e => (Raises e, config, log)
          | Returns options => (Returns options, write_config options, log)
          end
        else (Returns options, config, log)
      else (Returns options, config, log)
  end.

(** What [update_bin_listing] asks of the operating system: [glob.glob];
    [path.getmtime], [None] when the file cannot be examined; and
    [path.basename].  A modification time is a float, given here as the
    rational number it denotes; [strftime t] is
    [str(datetime.fromtimestamp(t).strftime("%Y-%m-%d %H:%M:%S"))]. *)
Record os_view : Type := {
  glob : text -> list text;
  getmtime : text -> option Q;
  basename : text -> text;
  strftime : Q -> text
}.

(** The attributes of [MainUI] that the listing touches: [self.options],
    [self.current_folder_path], the rows of the file table (each row its
    "file" and its "date"), and [gui_config.json]. *)
Record main_ui : Type := {
  options : json;
  current_folder_path : json;
  rowData : list (text * text);
  config : config_file
}.

(** [a + b] where [b] is a [str] literal. *)
Definition str_concat (a : json) (b : text) : outcome text :=
  match a with
  | JString s => Returns (s ++ b)
  | _ => Raises TypeError
  end.

(** [path.getmtime] as a sort key: the keys of all items are computed
    before anything is moved. *)
Fixpoint with_mtime (os : os_view) (bins : list text) : outcome (list (Q * text)) :=
  match bins with
  | [] => Returns []
  | bin_file :: rest =>
      match getmtime os bin_file with
      | None => Raises OSError
      | Some t => stamped <~ with_mtime os rest ;; Returns ((t, bin_file) :: stamped)
      end
  end.

(** [list.sort(key=..., reverse=True)] on items with their keys: descending
    keys, items with equal keys in their original order. *)
Fixpoint insert_newest (x : Q * text) (sorted : list (Q * text)) : list (Q * text) :=
  match sorted with
  | [] => [x]
  | y :: rest =>
      if Qle_bool (fst y) (fst x) then x :: y :: rest
      else y :: insert_newest x rest
  end.

Definition sort_newest_first (items : list (Q * text)) : list (Q * text) :=
  foldr insert_newest [] items.

(** The loop of lines 286-296: one row per file, its modification time
    read again. *)
Fixpoint append_rows (os : os_view) (bins : list text) (rows : list (text * text))
  : outcome (list (text * text)) :=
  match bins with
  | [] => Returns rows
  | bin_file :: rest =>
      match getmtime os bin_file with
      | None => Raises OSError
      | Some t => append_rows os rest (rows ++ [(basename os bin_file, strftime os t)])
      end
  end.

(** [MainUI.update_bin_listing], lines 276-297; the outcome and the state
    it leaves.  (The final [file_table.update()] only redraws.) *)
Definition update_bin_listing (os : os_view) (self : main_ui)
  : outcome unit * main_ui :=
  let self := {| options := options self;
                 current_folder_path := current_folder_path self;
                 rowData := []; config := config self |} in
  match (bin_pattern <~ str_concat (current_folder_path self) (text_lit "/*.bin") ;;
         let bins := glob os bin_pattern in
         frf_pattern <~ str_concat (current_folder_path self) (text_lit "/*.frf") ;;
         Returns (bins ++ glob os frf_pattern)) with
  | Raises e => (Raises e, self)
  | Returns bins =>
      match setitem (options self) (text_lit "tune_folder")
              (current_folder_path self) with
      | Raises e => (Raises e, self)
      | Returns new_options =>
          let self := {| options := new_options;
                         current_folder_path := current_folder_path self;
                         rowData := rowData self;
                         config := write_config new_options |} in
          match (stamped <~ with_mtime os bins ;;
                 append_rows os (map snd (sort_newest_first stamped)) (rowData self))
          with
          | Raises e => (Raises e, self)
          | Returns rows =>
              (Returns tt,
               {| options := options self;
                  current_folder_path := current_folder_path self;
                  rowData := rows; config := config self |})
          end
      end
  end.

(** [v != ""] on a loaded value. *)
Definition not_empty_str (v : json) : bool :=
  match v with
  | JString [] => false
  | _ => true
  end.

(** [MainUI.on_startup], lines 156-159. *)
Definition on_startup (os : os_view) (self : main_ui) : outcome unit * main_ui :=
  match getitem (options self) (text_lit "tune_folder") with
  | Raises e => (Raises e, self)
  | Returns tune_folder =>
      if not_empty_str tune_folder then
        update_bin_listing os
          {| options := options self; current_folder_path := tune_folder;
             rowData := rowData self; config := config self |}
      else (Returns tt, self)
  end.

(** Sample inputs: a registry with a usable device, a subkey that cannot
    be opened and a device whose library is a number; a serial port; and
    stored options with and without a selected interface. *)
Definition tactrix : gmap string value :=
  <["Name" := VStr (text_lit "Tactrix OpenPort 2.0")]>
  (<["FunctionLibrary" := VStr (text_lit "C:/op20pt32.dll")]> ∅).

Definition broken : gmap string value :=
  <["Name" := VStr (text_lit "Broken")]> (<["FunctionLibrary" := VInt 3]> ∅).

Definition sample_registry : option (list (option (gmap string value))) :=
  Some [Some tactrix; None; Some broken].

Definition sample_port : port_info :=
  {| name := text_lit "ttyUSB0"; description := text_lit "A0 bridge";
     device := text_lit "/dev/tty_USB0" |}.

Definition stored_members (interface : text) : gmap text json :=
  list_to_map
    [ (text_lit "tune_folder", JString (text_lit "/tunes"));
      (text_lit "interface", JString interface) ].

Definition stored_options (interface : text) : json :=
  JObject (stored_members interface).

(** A folder with three images; two of them were modified at the same
    time, and one file of another folder cannot be examined. *)
Definition sample_os : os_view :=
  {| glob := fun pattern =>
       if bool_decide (pattern = text_lit "/tunes/*.bin")
       then [text_lit "/tunes/a.bin"; text_lit "/tunes/b.bin"]
       else if bool_decide (pattern = text_lit "/tunes/*.frf")
       then [text_lit "/tunes/c.frf"]
       else if bool_decide (pattern = text_lit "/gone/*.bin")
       then [text_lit "/gone/x.bin"]
       else [];
     getmtime := fun file =>
       if bool_decide (file = text_lit "/tunes/a.bin") then Some (3 # 2)%Q
       else if bool_decide (file = text_lit "/tunes/b.bin") then Some (5 # 1)%Q
       else if bool_decide (file = text_lit "/tunes/c.frf") then Some (6 # 4)%Q
       else None;
     basename := fun file => drop 7 file;
     strftime := fun t => text_lit "1970-01-01 00:00:0" ++
                          [(48 + Z.to_N (Qnum t / Zpos (Qden t)))%N] |}.

Definition sample_ui (folder : text) : main_ui :=
  {| options := stored_options (text_lit "SocketCAN_can0");
     current_folder_path := JString folder;
     rowData := [(text_lit "old.bin", text_lit "1970-01-01 00:00:00")];
     config := Json (stored_options (text_lit "SocketCAN_can0")) |}.

End GUI.

(* ===================================================================== *)
(** * Properties *)
(* ===================================================================== *)

(** ** Slices *)

Lemma py_slice_front {A} (l : list A) (k : Z) :
  0 <= k -> py_slice l (Some 0) (Some k) = take (Z.to_nat k) l.
Proof.
  intros Hk. unfold py_slice, slice_bound.
  destruct (k <? 0) eqn:E; [apply Z.ltb_lt in E; lia |].
  replace (0 `min` Z.of_nat (length l)) with 0 by lia.
  change (Z.to_nat 0) with 0%nat. rewrite drop_0, Z.sub_0_r.
  destruct (Z.min_spec k (Z.of_nat (length l))) as [[Hlt ->] | [Hge ->]].
  - reflexivity.
  - rewrite Nat2Z.id. rewrite !firstn_all2; [reflexivity | lia | lia].
Qed.

Lemma py_slice_front_neg {A} (l : list A) (k : nat) :
  (0 < k)%nat ->
  py_slice l (Some 0) (Some (- Z.of_nat k)) = take (length l - k) l.
Proof.
  intros Hk. unfold py_slice, slice_bound.
  destruct (- Z.of_nat k <? 0) eqn:E; [| apply Z.ltb_ge in E; lia].
  change (0 <? 0) with false. cbv iota.
  replace (0 `min` Z.of_nat (length l)) with 0 by lia.
  change (Z.to_nat 0) with 0%nat. rewrite drop_0. f_equal. lia.
Qed.

Lemma py_slice_back {A} (l : list A) (k : nat) :
  (0 < k)%nat ->
  py_slice l (Some (- Z.of_nat k)) None = drop (length l - k) l.
Proof.
  intros Hk. unfold py_slice, slice_bound.
  destruct (- Z.of_nat k <? 0) eqn:E; [| apply Z.ltb_ge in E; lia].
  replace (Z.to_nat (Z.max 0 (Z.of_nat (length l) + - Z.of_nat k)))
    with (length l - k)%nat by lia.
  apply firstn_all2. rewrite length_drop. lia.
Qed.

Lemma py_slice_prefix {A} (l : list A) (stop : Z) :
  py_slice l (Some 0) (Some stop) `prefix_of` l.
Proof.
  unfold py_slice, slice_bound. change (0 <? 0) with false. cbv iota.
  replace (0 `min` Z.of_nat (length l)) with 0 by lia.
  change (Z.to_nat 0) with 0%nat. rewrite drop_0. apply prefix_take.
Qed.

(** Line 59 and line 89 as [drop] and [take]. *)
Lemma sig_block_drop (bin_data : list byte) :
  py_slice bin_data (Some (-350)) None = drop (length bin_data - 350) bin_data.
Proof. apply (py_slice_back bin_data 350). lia. Qed.

Lemma strip_take (bin_data : list byte) :
  py_slice bin_data (Some 0) (Some (-350)) = take (length bin_data - 350) bin_data.
Proof. apply (py_slice_front_neg bin_data 350). lia. Qed.

(** The test of line 60 holds exactly when the last 350 bytes (all of
    them, when there are fewer) begin with the tag. *)
Lemma has_sig_block_spec (bin_data : list byte) :
  has_sig_block bin_data = true <-> tagged bin_data.
Proof.
  unfold has_sig_block, tagged, last_350.
  rewrite bool_decide_eq_true, sig_block_drop.
  rewrite py_slice_front by lia.
  set (s := drop _ _). split.
  - intros E. exists (drop 9 s). rewrite <- E. symmetry. apply take_drop.
  - intros [k Hk]. rewrite Hk. reflexivity.
Qed.

Lemma has_sig_block_false (bin_data : list byte) :
  has_sig_block bin_data = false <-> ~ tagged bin_data.
Proof.
  rewrite <- has_sig_block_spec. destruct (has_sig_block bin_data); split; congruence.
Qed.

(** ** Metadata *)

Lemma encode_utf8_ascii (s : text) :
  is_ascii s -> encode_utf8 s = Ok (map byte_of_N s).
Proof.
  induction 1 as [| c s Hc Hs IH]; [reflexivity |].
  simpl. unfold utf8_codepoint.
  destruct (c <? 128)%N eqn:E; [| apply N.ltb_ge in E; lia].
  simpl. rewrite IH. reflexivity.
Qed.

Lemma ljust_ascii (s : text) (n : nat) :
  is_ascii s -> is_ascii (ljust s n SPACE).
Proof.
  intros Hs. unfold ljust. apply Forall_app. split; [exact Hs |].
  apply Forall_replicate. unfold SPACE. lia.
Qed.

Lemma ljust_take_length (s : text) (n : nat) (c : codepoint) :
  length (ljust (take n s) n c) = n.
Proof.
  unfold ljust. rewrite length_app, length_replicate, length_take. lia.
Qed.

Lemma field_ascii (s : text) (n : nat) :
  is_ascii s ->
  encode_utf8 (ljust (py_slice s (Some 0) (Some (Z.of_nat n))) n SPACE) =
  Ok (map byte_of_N (take n s) ++ replicate (n - length s) " "%byte).
Proof.
  intros Hs. rewrite py_slice_front by lia. rewrite Nat2Z.id.
  rewrite encode_utf8_ascii by (apply ljust_ascii, Forall_take, Hs).
  unfold ljust. rewrite map_app, length_take.
  f_equal. f_equal.
  replace (n - n `min` length s)%nat with (n - length s)%nat by lia.
  induction (n - length s)%nat as [| k IH]; [reflexivity |].
  simpl. rewrite IH. reflexivity.
Qed.

(** On ASCII text the record is the tag, the box code cut to 15 characters
    and padded with spaces to 15 bytes, the notes cut to 70 and padded to
    70 bytes: 94 bytes in all. *)
Lemma build_metadata_ascii (boxcode notes : text) :
  is_ascii boxcode -> is_ascii notes ->
  exists m,
    build_metadata boxcode notes = Ok m /\
    m = bytes_lit "METADATA:" ++
        (map byte_of_N (take 15 boxcode) ++
           replicate (15 - length boxcode) " "%byte) ++
        (map byte_of_N (take 70 notes) ++
           replicate (70 - length notes) " "%byte) /\
    length m = 94%nat.
Proof.
  intros Hb Hn. eexists. split; [| split; [reflexivity |]].
  - pose proof (field_ascii boxcode 15 Hb) as Eb.
    pose proof (field_ascii notes 70 Hn) as En.
    change (Z.of_nat 15) with 15 in Eb. change (Z.of_nat 70) with 70 in En.
    unfold build_metadata. rewrite Eb, En. reflexivity.
  - rewrite !length_app, !length_map, !length_replicate, !length_take.
    change (length (bytes_lit "METADATA:")) with 9%nat.
    unfold text, codepoint in *. lia.
Qed.

Example build_metadata_ABC :
  build_metadata (text_lit "ABC") (text_lit "test") =
  Ok (bytes_lit "METADATA:" ++ bytes_lit "ABC            " ++
      bytes_lit "test                                                                  ").
Proof. vm_compute. reflexivity. Qed.

Example build_metadata_long_boxcode :
  build_metadata (text_lit "0123456789ABCDEFGHIJ") [] =
  Ok (bytes_lit "METADATA:" ++ bytes_lit "0123456789ABCDE" ++ replicate 70 " "%byte).
Proof. vm_compute. reflexivity. Qed.

(** C6 (the code departs from it): the record is not 94 bytes for every
    text.  The one-character box code U+00E9 is two bytes in UTF-8 and is
    padded as one character, so the record has 95 bytes; fifteen such
    characters give a box-code field of 30 bytes; and a lone surrogate makes
    the encoding raise. *)
Theorem build_metadata_not_fixed_width :
  (exists m, build_metadata [233%N] [] = Ok m /\ length m = 95%nat) /\
  (exists m, build_metadata (replicate 15 233%N) [] = Ok m /\
             length m = 109%nat) /\
  build_metadata [55296%N] [] = Raise UnicodeEncodeError.
Proof.
  split; [| split].
  - eexists. split; [vm_compute; reflexivity | reflexivity].
  - eexists. split; [vm_compute; reflexivity | reflexivity].
  - vm_compute. reflexivity.
Qed.

(** ** Verification *)

Section Verification.

Context `{crypto : PKCS115}.

Lemma key_loads_inv (fs : gmap string (list byte)) (path : string) :
  key_loads fs path = true ->
  exists b k, fs !! path = Some b /\ RSA_import_key b = Ok k.
Proof.
  unfold key_loads, read_file.
  destruct (fs !! path) as [b |]; simpl; [| discriminate].
  destruct (RSA_import_key b) as [k |] eqn:E; [| discriminate].
  intros _. exists b, k. split; [reflexivity | exact E].
Qed.

(** With the key in hand, [verify_bin] is the outcome of the primitive
    turned into a boolean. *)
Lemma verify_bin_loaded (fs : gmap string (list byte))
    (bin_file signature : list byte) (path : string)
    (public_key : list byte) (key : rsa_key) :
  fs !! path = Some public_key ->
  RSA_import_key public_key = Ok key ->
  verify_bin fs bin_file signature path =
  Ok (match pkcs115_verify key (SHA256_new bin_file) signature with
      | Ok _ => true
      | Raise _ => false
      end).
Proof.
  intros Hf Hk. unfold verify_bin, read_file. rewrite Hf. simpl. rewrite Hk. simpl.
  destruct (pkcs115_verify key (SHA256_new bin_file) signature); reflexivity.
Qed.

Lemma verify_bin_key_loads (fs : gmap string (list byte))
    (bin_file signature : list byte) (path : string) :
  key_loads fs path = true ->
  exists ok, verify_bin fs bin_file signature path = Ok ok.
Proof.
  intros H. destruct (key_loads_inv fs path H) as (b & k & Hf & Hk).
  eexists. apply (verify_bin_loaded fs bin_file signature path b k Hf Hk).
Qed.

(** Outside the [try]: a missing key file and bytes that are no key are
    raised to the caller. *)
Lemma verify_bin_missing_key_file (fs : gmap string (list byte))
    (bin_file signature : list byte) (path : string) :
  fs !! path = None ->
  verify_bin fs bin_file signature path = Raise (FileNotFoundError path).
Proof. intros Hf. unfold verify_bin, read_file. rewrite Hf. reflexivity. Qed.

Lemma verify_bin_malformed_key (fs : gmap string (list byte))
    (bin_file signature : list byte) (path : string)
    (public_key : list byte) (e : exn) :
  fs !! path = Some public_key ->
  RSA_import_key public_key = Raise e ->
  verify_bin fs bin_file signature path = Raise e.
Proof.
  intros Hf Hk. unfold verify_bin, read_file. rewrite Hf. simpl. rewrite Hk.
  reflexivity.
Qed.

(** C5: for every content, every signature and every public key (a key
    file that [RSA.import_key] accepts), [verify_bin] returns a boolean and
    raises nothing.  The boolean is [True] exactly when the PKCS#1 v1.5
    check of the signature against the SHA-256 digest of the content
    passes, and [False] whenever that check raises, whatever it raises: a
    malformed signature, or a signature made with another key. *)
Theorem verify_bin_total (fs : gmap string (list byte))
    (bin_file signature : list byte) (public_key_path : string)
    (public_key : list byte) (key : rsa_key) :
  fs !! public_key_path = Some public_key ->
  RSA_import_key public_key = Ok key ->
  exists ok : bool,
    verify_bin fs bin_file signature public_key_path = Ok ok /\
    (ok = true <->
     exists v, pkcs115_verify key (SHA256_new bin_file) signature = Ok v) /\
    (forall e, pkcs115_verify key (SHA256_new bin_file) signature = Raise e ->
               ok = false).
Proof.
  intros Hf Hk.
  rewrite (verify_bin_loaded fs bin_file signature public_key_path
             public_key key Hf Hk).
  destruct (pkcs115_verify key (SHA256_new bin_file) signature) as [v | e0] eqn:E.
  - exists true. split; [reflexivity |]. split.
    + split; [intros _; exists v; reflexivity | reflexivity].
    + intros e He. discriminate He.
  - exists false. split; [reflexivity |]. split.
    + split; [discriminate | intros [v Hv]; discriminate Hv].
    + reflexivity.
Qed.

End Verification.

(** ** Loading an image *)

Section Parser.

Context `{crypto : PKCS115}.

Variable fs : gmap string (list byte).
Variable file_path : string.
Variable bin_data : list byte.
Hypothesis file_content : fs !! file_path = Some bin_data.

Lemma read_bytes_untagged (public_key_file : option string) :
  has_sig_block bin_data = false ->
  read_bytes fs file_path public_key_file = (Ok bin_data, []).
Proof.
  intros Htag. unfold read_bytes, read_file. rewrite file_content.
  unfold has_sig_block in Htag.
  cbn [lift_result bind_logged]. cbv zeta in Htag |- *. rewrite Htag.
  reflexivity.
Qed.

(** A tagged stream: the code runs lines 61-89. *)
Ltac enter_sig_block Htag :=
  unfold read_bytes, read_file; rewrite file_content;
  unfold has_sig_block in Htag;
  cbn [lift_result bind_logged]; cbv zeta in Htag |- *; rewrite Htag;
  fold (slot1 bin_data); fold (slot2 bin_data); fold (signed_content bin_data).

Lemma read_bytes_primary_raises (public_key_file : option string) (e : exn) :
  has_sig_block bin_data = true ->
  verify_bin fs (signed_content bin_data) (slot1 bin_data) VW_FLASH_PUB = Raise e ->
  read_bytes fs file_path public_key_file = (Raise e, found_records bin_data).
Proof.
  intros Htag Hv. enter_sig_block Htag. rewrite Hv. reflexivity.
Qed.

Lemma read_bytes_same_slots (public_key_file : option string) (ok1 : bool) :
  has_sig_block bin_data = true ->
  verify_bin fs (signed_content bin_data) (slot1 bin_data) VW_FLASH_PUB = Ok ok1 ->
  slot1 bin_data = slot2 bin_data ->
  read_bytes fs file_path public_key_file =
  (Ok (take (length bin_data - 350) bin_data),
   found_records bin_data ++ [first_record ok1; no_secondary_record]).
Proof.
  intros Htag Hv Hs. enter_sig_block Htag. rewrite Hv.
  rewrite (bool_decide_eq_true_2 _ Hs). rewrite strip_take.
  destruct ok1; reflexivity.
Qed.

Lemma read_bytes_no_public_key (public_key_file : option string) (ok1 : bool) :
  has_sig_block bin_data = true ->
  verify_bin fs (signed_content bin_data) (slot1 bin_data) VW_FLASH_PUB = Ok ok1 ->
  slot1 bin_data <> slot2 bin_data ->
  truthy public_key_file = false ->
  read_bytes fs file_path public_key_file =
  (Ok (take (length bin_data - 350) bin_data),
   found_records bin_data ++ [first_record ok1; unchecked_secondary_record]).
Proof.
  intros Htag Hv Hs Ht. enter_sig_block Htag. rewrite Hv.
  rewrite (bool_decide_eq_false_2 _ Hs), Ht. rewrite strip_take.
  destruct ok1; reflexivity.
Qed.

Lemma read_bytes_secondary_checked (public_key_file : option string)
    (ok1 ok2 : bool) :
  has_sig_block bin_data = true ->
  verify_bin fs (signed_content bin_data) (slot1 bin_data) VW_FLASH_PUB = Ok ok1 ->
  slot1 bin_data <> slot2 bin_data ->
  truthy public_key_file = true ->
  verify_bin fs (signed_content bin_data) (slot2 bin_data)
             (default "" public_key_file) = Ok ok2 ->
  read_bytes fs file_path public_key_file =
  (Ok (take (length bin_data - 350) bin_data),
   found_records bin_data ++ [first_record ok1; second_record ok2]).
Proof.
  intros Htag Hv Hs Ht Hv2. enter_sig_block Htag. rewrite Hv.
  rewrite (bool_decide_eq_false_2 _ Hs), Ht, Hv2. rewrite strip_take.
  destruct ok1, ok2; reflexivity.
Qed.

Lemma read_bytes_secondary_raises (public_key_file : option string)
    (ok1 : bool) (e : exn) :
  has_sig_block bin_data = true ->
  verify_bin fs (signed_content bin_data) (slot1 bin_data) VW_FLASH_PUB = Ok ok1 ->
  slot1 bin_data <> slot2 bin_data ->
  truthy public_key_file = true ->
  verify_bin fs (signed_content bin_data) (slot2 bin_data)
             (default "" public_key_file) = Raise e ->
  read_bytes fs file_path public_key_file =
  (Raise e, found_records bin_data ++ [first_record ok1]).
Proof.
  intros Htag Hv Hs Ht Hv2. enter_sig_block Htag. rewrite Hv.
  rewrite (bool_decide_eq_false_2 _ Hs), Ht, Hv2.
  destruct ok1; reflexivity.
Qed.

(** Whatever the checks say, a tagged stream that is returned is returned
    without its last 350 bytes. *)
Lemma read_bytes_tagged_result (public_key_file : option string)
    (out : list byte) :
  has_sig_block bin_data = true ->
  fst (read_bytes fs file_path public_key_file) = Ok out ->
  out = take (length bin_data - 350) bin_data.
Proof.
  intros Htag.
  destruct (verify_bin fs (signed_content bin_data) (slot1 bin_data) VW_FLASH_PUB)
    as [ok1 | e1] eqn:Hv1.
  2: { rewrite (read_bytes_primary_raises _ e1 Htag Hv1). discriminate. }
  destruct (decide (slot1 bin_data = slot2 bin_data)) as [Hs | Hs].
  { rewrite (read_bytes_same_slots _ ok1 Htag Hv1 Hs). simpl. congruence. }
  destruct (truthy public_key_file) eqn:Ht.
  2: { rewrite (read_bytes_no_public_key _ ok1 Htag Hv1 Hs Ht). simpl. congruence. }
  destruct (verify_bin fs (signed_content bin_data) (slot2 bin_data)
              (default "" public_key_file)) as [ok2 | e2] eqn:Hv2.
  - rewrite (read_bytes_secondary_checked _ ok1 ok2 Htag Hv1 Hs Ht Hv2).
    simpl. congruence.
  - rewrite (read_bytes_secondary_raises _ ok1 e2 Htag Hv1 Hs Ht Hv2).
    discriminate.
Qed.

(** With the keys at hand, a tagged stream is returned stripped. *)
Lemma read_bytes_tagged_returns (public_key_file : option string) :
  has_sig_block bin_data = true ->
  key_loads fs VW_FLASH_PUB = true ->
  (slot1 bin_data <> slot2 bin_data -> truthy public_key_file = true ->
   key_loads fs (default "" public_key_file) = true) ->
  exists ok1 log,
    verify_bin fs (signed_content bin_data) (slot1 bin_data) VW_FLASH_PUB = Ok ok1 /\
    read_bytes fs file_path public_key_file =
    (Ok (take (length bin_data - 350) bin_data),
     found_records bin_data ++ first_record ok1 :: log).
Proof.
  intros Htag Hk1 Hk2.
  destruct (verify_bin_key_loads fs (signed_content bin_data) (slot1 bin_data)
              VW_FLASH_PUB Hk1) as [ok1 Hv1].
  exists ok1.
  destruct (decide (slot1 bin_data = slot2 bin_data)) as [Hs | Hs].
  { eexists. split; [exact Hv1 |]. apply (read_bytes_same_slots _ ok1 Htag Hv1 Hs). }
  destruct (truthy public_key_file) eqn:Ht.
  2: { eexists. split; [exact Hv1 |].
       apply (read_bytes_no_public_key _ ok1 Htag Hv1 Hs Ht). }
  destruct (verify_bin_key_loads fs (signed_content bin_data) (slot2 bin_data)
              (default "" public_key_file) (Hk2 Hs eq_refl)) as [ok2 Hv2].
  eexists. split; [exact Hv1 |].
  apply (read_bytes_secondary_checked _ ok1 ok2 Htag Hv1 Hs Ht Hv2).
Qed.

(** Two equal slots: the second check is not made, whatever public key the
    caller names (none, a good one, a missing file). *)
Lemma read_bytes_single_signer :
  has_sig_block bin_data = true ->
  key_loads fs VW_FLASH_PUB = true ->
  slot1 bin_data = slot2 bin_data ->
  exists ok1,
    forall public_key_file : option string,
      read_bytes fs file_path public_key_file =
      (Ok (take (length bin_data - 350) bin_data),
       found_records bin_data ++ [first_record ok1; no_secondary_record]).
Proof.
  intros Htag Hk1 Hs.
  destruct (verify_bin_key_loads fs (signed_content bin_data) (slot1 bin_data)
              VW_FLASH_PUB Hk1) as [ok1 Hv1].
  exists ok1. intros public_key_file.
  apply (read_bytes_same_slots _ ok1 Htag Hv1 Hs).
Qed.

End Parser.

(** C3, as amended: a stream whose last 350 bytes (the whole stream when it
    has fewer) do not begin with the tag is returned whole, nothing is
    logged and no key is read. *)
Theorem read_bytes_passthrough `{crypto : PKCS115}
    (fs : gmap string (list byte)) (file_path : string)
    (public_key_file : option string) (bin_data : list byte) :
  fs !! file_path = Some bin_data ->
  ~ tagged bin_data ->
  read_bytes fs file_path public_key_file = (Ok bin_data, []).
Proof.
  intros Hf Htag. apply read_bytes_untagged; [exact Hf |].
  apply has_sig_block_false, Htag.
Qed.

Lemma read_bytes_passthrough_witness :
  read_bytes (Textbook.fs_with Textbook.plain) "fw.bin" (Some "B.pub") =
  (Ok Textbook.plain, []).
Proof.
  apply (read_bytes_passthrough (Textbook.fs_with Textbook.plain) "fw.bin"
           (Some "B.pub") Textbook.plain).
  - vm_compute. reflexivity.
  - apply has_sig_block_false. vm_compute. reflexivity.
Defined.

(** C3, as stated, fails: the nine bytes of the tag alone are a stream
    shorter than 350 bytes, and they are not returned; the stream is taken
    for a trailer, checked, and stripped to nothing. *)
Lemma short_tagged_stream_is_stripped :
  (length Textbook.bare_tag < 350)%nat /\
  read_bytes (Textbook.fs_with Textbook.bare_tag) "fw.bin" None =
  (Ok [],
   [ (WARNING, Text "Found signature block in bin file, validating");
     (INFO, StrOfBytes []);
     (CRITICAL, Text "First signature failed!");
     (INFO, Text "File contains additional signature, but no public key arg provided") ]) /\
  read_bytes (Textbook.fs_with Textbook.bare_tag) "fw.bin" None <>
  (Ok Textbook.bare_tag, []).
Proof.
  split; [vm_compute; lia |].
  split; [vm_compute; reflexivity |].
  vm_compute. discriminate.
Qed.

(** C4: a stream in which a trailer is detected is returned without its
    last 350 bytes, and nothing is raised, for every outcome of the two
    checks (the primitives, and so what each check answers, are arbitrary),
    as long as the key files that are read hold keys. *)
Theorem read_bytes_fail_open `{crypto : PKCS115}
    (fs : gmap string (list byte)) (file_path : string)
    (public_key_file : option string) (bin_data : list byte) :
  fs !! file_path = Some bin_data ->
  tagged bin_data ->
  key_loads fs VW_FLASH_PUB = true ->
  (slot1 bin_data <> slot2 bin_data -> truthy public_key_file = true ->
   key_loads fs (default "" public_key_file) = true) ->
  fst (read_bytes fs file_path public_key_file) =
  Ok (take (length bin_data - 350) bin_data).
Proof.
  intros Hf Htag Hk1 Hk2. apply has_sig_block_spec in Htag.
  destruct (read_bytes_tagged_returns fs file_path bin_data Hf public_key_file
              Htag Hk1 Hk2) as (ok1 & log & _ & ->).
  reflexivity.
Qed.

Lemma read_bytes_fail_open_witness :
  fst (read_bytes (Textbook.fs_with Textbook.tampered) "fw.bin" (Some "B.pub")) =
  Ok (take (length Textbook.tampered - 350) Textbook.tampered).
Proof.
  apply (read_bytes_fail_open (Textbook.fs_with Textbook.tampered) "fw.bin"
           (Some "B.pub") Textbook.tampered).
  - vm_compute. reflexivity.
  - apply has_sig_block_spec. vm_compute. reflexivity.
  - vm_compute. reflexivity.
  - intros _ _. vm_compute. reflexivity.
Defined.

(** Both checks fail on the tampered image and pass on the untouched one;
    the bytes handed back are the first four either way. *)
Example read_bytes_tampered :
  read_bytes (Textbook.fs_with Textbook.tampered) "fw.bin" (Some "B.pub") =
  (Ok [xff; x02; x03; x04],
   found_records Textbook.tampered ++ [first_record false; second_record false]).
Proof. vm_compute. reflexivity. Qed.

Example read_bytes_co_signed :
  read_bytes (Textbook.fs_with Textbook.co_signed) "fw.bin" (Some "B.pub") =
  (Ok Textbook.payload,
   found_records Textbook.co_signed ++ [first_record true; second_record true]).
Proof. vm_compute. reflexivity. Qed.

(** C9: what [read_bytes] returns is a prefix of the stream it read: the
    whole stream when no trailer is detected, the stream without its last
    350 bytes (nothing at all when it has at most 350) when the last 350
    bytes begin with the tag.  The untagged stream is always returned; the
    tagged one is returned when the key files that are read hold keys. *)
Theorem read_bytes_prefix `{crypto : PKCS115}
    (fs : gmap string (list byte)) (file_path : string)
    (public_key_file : option string) (bin_data : list byte) :
  fs !! file_path = Some bin_data ->
  (forall out, fst (read_bytes fs file_path public_key_file) = Ok out ->
     out `prefix_of` bin_data /\
     (~ tagged bin_data -> out = bin_data) /\
     (tagged bin_data ->
        out = take (length bin_data - 350) bin_data /\
        ((length bin_data <= 350)%nat -> out = []))) /\
  (~ tagged bin_data ->
     fst (read_bytes fs file_path public_key_file) = Ok bin_data) /\
  (tagged bin_data ->
   key_loads fs VW_FLASH_PUB = true ->
   (slot1 bin_data <> slot2 bin_data -> truthy public_key_file = true ->
    key_loads fs (default "" public_key_file) = true) ->
     fst (read_bytes fs file_path public_key_file) =
     Ok (take (length bin_data - 350) bin_data)).
Proof.
  intros Hf. split; [| split].
  - intros out Hout.
    destruct (has_sig_block bin_data) eqn:Htag.
    + pose proof (read_bytes_tagged_result fs file_path bin_data Hf
                    public_key_file out Htag Hout) as ->.
      apply has_sig_block_spec in Htag.
      split; [apply prefix_take |]. split; [intros Hn; contradiction |].
      intros _. split; [reflexivity |].
      intros Hlen. replace (length bin_data - 350)%nat with 0%nat by lia.
      reflexivity.
    + rewrite (read_bytes_untagged fs file_path bin_data Hf public_key_file Htag)
        in Hout.
      simpl in Hout. injection Hout as <-.
      apply has_sig_block_false in Htag.
      split; [reflexivity |]. split; [reflexivity |].
      intros Ht. contradiction.
  - intros Htag. apply has_sig_block_false in Htag.
    rewrite (read_bytes_untagged fs file_path bin_data Hf public_key_file Htag).
    reflexivity.
  - intros Htag Hk1 Hk2. apply has_sig_block_spec in Htag.
    destruct (read_bytes_tagged_returns fs file_path bin_data Hf public_key_file
                Htag Hk1 Hk2) as (ok1 & log & _ & ->).
    reflexivity.
Qed.

Lemma read_bytes_prefix_witness :
  (forall out,
     fst (read_bytes (Textbook.fs_with Textbook.co_signed) "fw.bin" None) = Ok out ->
     out `prefix_of` Textbook.co_signed /\
     (~ tagged Textbook.co_signed -> out = Textbook.co_signed) /\
     (tagged Textbook.co_signed ->
        out = take (length Textbook.co_signed - 350) Textbook.co_signed /\
        ((length Textbook.co_signed <= 350)%nat -> out = []))) /\
  (~ tagged Textbook.co_signed ->
     fst (read_bytes (Textbook.fs_with Textbook.co_signed) "fw.bin" None) =
     Ok Textbook.co_signed) /\
  (tagged Textbook.co_signed ->
   key_loads (Textbook.fs_with Textbook.co_signed) VW_FLASH_PUB = true ->
   (slot1 Textbook.co_signed <> slot2 Textbook.co_signed ->
    truthy None = true ->
    key_loads (Textbook.fs_with Textbook.co_signed) (default "" None) = true) ->
     fst (read_bytes (Textbook.fs_with Textbook.co_signed) "fw.bin" None) =
     Ok (take (length Textbook.co_signed - 350) Textbook.co_signed)).
Proof.
  apply (read_bytes_prefix (Textbook.fs_with Textbook.co_signed) "fw.bin" None
           Textbook.co_signed).
  vm_compute. reflexivity.
Defined.

(** The inner hypotheses of C9 hold at that input: the stream is tagged,
    the trust anchor loads, and the stream comes back as its first four
    bytes. *)
Example co_signed_is_tagged_and_returned :
  tagged Textbook.co_signed /\
  key_loads (Textbook.fs_with Textbook.co_signed) VW_FLASH_PUB = true /\
  fst (read_bytes (Textbook.fs_with Textbook.co_signed) "fw.bin" None) =
  Ok Textbook.payload /\
  take (length Textbook.co_signed - 350) Textbook.co_signed = Textbook.payload.
Proof.
  split; [apply has_sig_block_spec; vm_compute; reflexivity |].
  split; [vm_compute; reflexivity |].
  split; vm_compute; reflexivity.
Qed.

(** At most 350 bytes and tagged: nothing is left. *)
Example read_bytes_whole_stream_is_trailer :
  fst (read_bytes (Textbook.fs_with (drop 4 Textbook.single_signed)) "fw.bin" None)
  = Ok [].
Proof. vm_compute. reflexivity. Qed.

(** Single signer, on the parser's side: when the two slots are equal the
    second check is skipped and "No secondary signature found" is logged,
    for every [public_key_file]. *)
Lemma read_bytes_equal_slots `{crypto : PKCS115}
    (fs : gmap string (list byte)) (file_path : string) (bin_data : list byte) :
  fs !! file_path = Some bin_data ->
  tagged bin_data ->
  key_loads fs VW_FLASH_PUB = true ->
  slot1 bin_data = slot2 bin_data ->
  exists ok1,
    forall public_key_file : option string,
      read_bytes fs file_path public_key_file =
      (Ok (take (length bin_data - 350) bin_data),
       found_records bin_data ++ [first_record ok1; no_secondary_record]).
Proof.
  intros Hf Htag Hk Hs. apply has_sig_block_spec in Htag.
  apply (read_bytes_single_signer fs file_path bin_data Hf Htag Hk Hs).
Qed.

Example read_bytes_single_signed :
  read_bytes (Textbook.fs_with Textbook.single_signed) "fw.bin" (Some "missing.pub") =
  (Ok Textbook.payload,
   found_records Textbook.single_signed ++ [first_record true; no_secondary_record]).
Proof. vm_compute. reflexivity. Qed.

(** C5 at a concrete input: a signature made with B's key, checked against
    the trust anchor A. *)
Lemma verify_bin_total_witness :
  exists ok : bool,
    verify_bin Textbook.fs_keys (Textbook.payload ++ Textbook.metadata)
      (Textbook.signature_of (Textbook.payload ++ Textbook.metadata) Textbook.priv_B)
      VW_FLASH_PUB = Ok ok /\
    (ok = true <->
     exists v, pkcs115_verify
       {| Textbook.modulus := 3233; Textbook.public_exponent := 17;
          Textbook.private_exponent := None |}
       (SHA256_new (Textbook.payload ++ Textbook.metadata))
       (Textbook.signature_of (Textbook.payload ++ Textbook.metadata) Textbook.priv_B)
       = Ok v) /\
    (forall e, pkcs115_verify
       {| Textbook.modulus := 3233; Textbook.public_exponent := 17;
          Textbook.private_exponent := None |}
       (SHA256_new (Textbook.payload ++ Textbook.metadata))
       (Textbook.signature_of (Textbook.payload ++ Textbook.metadata) Textbook.priv_B)
       = Raise e -> ok = false).
Proof.
  apply (verify_bin_total Textbook.fs_keys (Textbook.payload ++ Textbook.metadata)
           (Textbook.signature_of (Textbook.payload ++ Textbook.metadata) Textbook.priv_B)
           VW_FLASH_PUB Textbook.pub_A).
  - vm_compute. reflexivity.
  - vm_compute. reflexivity.
Defined.

Example verify_bin_matching_key :
  verify_bin Textbook.fs_keys (Textbook.payload ++ Textbook.metadata)
    (Textbook.signature_of (Textbook.payload ++ Textbook.metadata) Textbook.priv_A)
    VW_FLASH_PUB = Ok true.
Proof. vm_compute. reflexivity. Qed.

Example verify_bin_other_key :
  verify_bin Textbook.fs_keys (Textbook.payload ++ Textbook.metadata)
    (Textbook.signature_of (Textbook.payload ++ Textbook.metadata) Textbook.priv_B)
    VW_FLASH_PUB = Ok false.
Proof. vm_compute. reflexivity. Qed.

Example verify_bin_malformed_signature :
  verify_bin Textbook.fs_keys (Textbook.payload ++ Textbook.metadata) [x00; x01]
    VW_FLASH_PUB = Ok false.
Proof. vm_compute. reflexivity. Qed.

(** ** Composing an image *)

(** Neither the module nor [builtins] binds [input_bin]. *)
Lemma input_bin_unbound :
  module_globals !! "input_bin" = None /\ builtins !! "input_bin" = None.
Proof. split; vm_compute; reflexivity. Qed.

Lemma load_input_bin :
  load_global module_globals "input_bin" = Raise (NameError "input_bin").
Proof.
  unfold load_global. destruct input_bin_unbound as [-> ->]. reflexivity.
Qed.

Section Composer.

Context `{crypto : PKCS115}.

(** In the module as it is, [sign_bin] gets as far as the first read of
    [input_bin]. *)
Lemma sign_bin_shipped (fs : gmap string (list byte)) (bin_file : list byte)
    (private_key_path : option string) (boxcode notes : text) :
  sign_bin module_globals fs bin_file private_key_path boxcode notes =
  (_ <-- build_metadata boxcode notes ;; Raise (NameError "input_bin")).
Proof.
  unfold sign_bin. rewrite load_input_bin.
  destruct (build_metadata boxcode notes); reflexivity.
Qed.

(** In any namespace, a call that returns has read bytes from
    [input_bin], signed them with the key file [VW_FLASH_PUB], and put that
    signature first. *)
Lemma sign_bin_returns_inv (g : gmap string pyobj)
    (fs : gmap string (list byte)) (bin_file : list byte)
    (private_key_path : option string) (boxcode notes : text) (img : pyobj) :
  sign_bin g fs bin_file private_key_path boxcode notes = Ok img ->
  exists data sig1 sig2,
    load_global g "input_bin" = Ok (PyBytes data) /\
    sign_datablock fs (PyBytes data) VW_FLASH_PUB = Ok sig1 /\
    (if truthy private_key_path
     then sign_datablock fs (PyBytes data) (default "" private_key_path) = Ok sig2
     else sig2 = sig1) /\
    img = PyBytes (data ++ sig1 ++ sig2).
Proof.
  unfold sign_bin.
  destruct (build_metadata boxcode notes) as [m |]; [| discriminate].
  cbn [bind_result].
  destruct (load_global g "input_bin") as [v |]; [| discriminate].
  cbn [bind_result].
  destruct (sign_datablock fs v VW_FLASH_PUB) as [s1 |] eqn:H1; [| discriminate].
  cbn [bind_result].
  destruct (truthy private_key_path) eqn:Ht.
  - destruct (sign_datablock fs v (default "" private_key_path)) as [s2 |] eqn:H2;
      [| discriminate].
    cbn [bind_result].
    destruct v; try discriminate. cbn [py_add_bytes bind_result].
    intros [= <-]. exists b, s1, s2. rewrite <- app_assoc. auto.
  - cbn [bind_result].
    destruct v; try discriminate. cbn [py_add_bytes bind_result].
    intros [= <-]. exists b, s1, s1. rewrite <- app_assoc. auto.
Qed.

(** C8: with the module's namespace as the source leaves it, [sign_bin]
    raises on every input and returns no image: once the metadata is built
    the next step reads [input_bin], which neither the module nor
    [builtins] binds, so [NameError] is raised (or the metadata could not be
    built, and that exception is raised). *)
Theorem sign_bin_always_raises (fs : gmap string (list byte))
    (bin_file : list byte) (private_key_path : option string)
    (boxcode notes : text) :
  module_globals !! "input_bin" = None /\
  builtins !! "input_bin" = None /\
  (exists e,
     sign_bin module_globals fs bin_file private_key_path boxcode notes = Raise e) /\
  sign_bin module_globals fs bin_file private_key_path boxcode notes =
  (_ <-- build_metadata boxcode notes ;; Raise (NameError "input_bin")).
Proof.
  destruct input_bin_unbound as [Hm Hb].
  split; [exact Hm |]. split; [exact Hb |].
  rewrite sign_bin_shipped.
  destruct (build_metadata boxcode notes) as [m | e]; cbn [bind_result].
  - split; [eexists; reflexivity | reflexivity].
  - split; [eexists; reflexivity | reflexivity].
Qed.

(** C10: whenever [sign_bin] returns an image, its first signature was
    computed by [sign_datablock] with the key file "./data/VW_Flash.pub"
    over the bytes bound to [input_bin]; no argument of the caller enters
    it.  [private_key_path] decides the second slot only: a copy of the
    first signature when it is absent or empty, a signature with that key
    file otherwise.  Any other call in the same namespace and file system
    starts with the same bytes and the same first signature. *)
Theorem sign_bin_primary_key_fixed (g : gmap string pyobj)
    (fs : gmap string (list byte)) (bin_file : list byte)
    (private_key_path : option string) (boxcode notes : text) (img : pyobj) :
  sign_bin g fs bin_file private_key_path boxcode notes = Ok img ->
  exists data sig1 sig2,
    img = PyBytes (data ++ sig1 ++ sig2) /\
    sign_datablock fs (PyBytes data) "./data/VW_Flash.pub" = Ok sig1 /\
    (truthy private_key_path = false -> sig2 = sig1) /\
    (truthy private_key_path = true ->
     sign_datablock fs (PyBytes data) (default "" private_key_path) = Ok sig2) /\
    (forall bin_file' private_key_path' boxcode' notes' img',
       sign_bin g fs bin_file' private_key_path' boxcode' notes' = Ok img' ->
       exists sig2', img' = PyBytes (data ++ sig1 ++ sig2')).
Proof.
  intros H.
  destruct (sign_bin_returns_inv _ _ _ _ _ _ _ H)
    as (data & sig1 & sig2 & Hg & H1 & H2 & ->).
  exists data, sig1, sig2. split; [reflexivity |]. split; [exact H1 |].
  split; [| split].
  - intros Ht. rewrite Ht in H2. exact H2.
  - intros Ht. rewrite Ht in H2. exact H2.
  - intros bin_file' pkp' boxcode' notes' img' H'.
    destruct (sign_bin_returns_inv _ _ _ _ _ _ _ H')
      as (data' & sig1' & sig2' & Hg' & H1' & _ & ->).
    rewrite Hg in Hg'. injection Hg' as <-.
    change VW_FLASH_PUB with "./data/VW_Flash.pub" in H1, H1'.
    rewrite H1 in H1'. injection H1' as <-.
    exists sig2'. reflexivity.
Qed.

End Composer.

Lemma sign_bin_primary_key_fixed_witness :
  sign_bin (Textbook.patched_globals (Textbook.payload ++ Textbook.metadata))
    Textbook.fs_signing Textbook.payload (Some "B.pem")
    (text_lit "04E906016HA") (text_lit "test") = Ok (PyBytes Textbook.co_signed) /\
  exists data sig1 sig2,
    PyBytes Textbook.co_signed = PyBytes (data ++ sig1 ++ sig2) /\
    sign_datablock Textbook.fs_signing (PyBytes data) "./data/VW_Flash.pub" = Ok sig1 /\
    (truthy (Some "B.pem") = false -> sig2 = sig1) /\
    (truthy (Some "B.pem") = true ->
     sign_datablock Textbook.fs_signing (PyBytes data) (default "" (Some "B.pem"))
     = Ok sig2) /\
    (forall bin_file' private_key_path' boxcode' notes' img',
       sign_bin (Textbook.patched_globals (Textbook.payload ++ Textbook.metadata))
         Textbook.fs_signing bin_file' private_key_path' boxcode' notes' = Ok img' ->
       exists sig2', img' = PyBytes (data ++ sig1 ++ sig2')).
Proof.
  split; [vm_compute; reflexivity |].
  apply (sign_bin_primary_key_fixed
           (Textbook.patched_globals (Textbook.payload ++ Textbook.metadata))
           Textbook.fs_signing Textbook.payload (Some "B.pem")
           (text_lit "04E906016HA") (text_lit "test") (PyBytes Textbook.co_signed)).
  vm_compute. reflexivity.
Defined.

(** C1 (the code departs from it): composing, storing and loading back does
    not return the payload.  In the module as it is the composition raises
    before any image exists, for every payload, box code, notes, keys and
    file system, so nothing is stored and nothing is loaded. *)
Theorem compose_store_load_raises `{crypto : PKCS115}
    (fs : gmap string (list byte)) (payload : list byte)
    (private_key_path : option string) (boxcode notes : text)
    (image_path : string) (public_key_file : option string) :
  exists e,
    compose_store_load module_globals fs payload private_key_path boxcode notes
      image_path public_key_file = (Raise e, []).
Proof.
  unfold compose_store_load. rewrite sign_bin_shipped.
  destruct (build_metadata boxcode notes) as [m | e]; eexists; reflexivity.
Qed.

Example compose_store_load_name_error :
  compose_store_load module_globals Textbook.fs_signing Textbook.payload
    (Some "B.pem") (text_lit "04E906016HA") (text_lit "test") "fw.bin" (Some "B.pub")
  = (Raise (NameError "input_bin"), []).
Proof. vm_compute. reflexivity. Qed.

(** Were [input_bin] the buffer built on line 23, the round trip would
    hold: the layouts of [sign_bin] and [read_bytes] agree. *)
Example compose_store_load_patched :
  compose_store_load
    (Textbook.patched_globals (Textbook.payload ++ Textbook.metadata))
    Textbook.fs_signing Textbook.payload (Some "B.pem")
    (text_lit "04E906016HA") (text_lit "test") "fw.bin" (Some "B.pub")
  = (Ok Textbook.payload,
     found_records Textbook.co_signed ++ [first_record true; second_record true]).
Proof. vm_compute. reflexivity. Qed.

(** C2 (the code departs from it): the signatures do not cover payload ++
    metadata.  As shipped nothing is signed at all; and with [input_bin]
    bound to other bytes, those bytes are what is signed and what the
    result starts with, while the payload and the metadata built on lines
    22-23 appear nowhere in it. *)
Theorem sign_bin_signs_input_bin :
  sign_bin module_globals Textbook.fs_signing Textbook.payload (Some "B.pem")
    (text_lit "04E906016HA") (text_lit "test") = Raise (NameError "input_bin") /\
  sign_bin (Textbook.patched_globals Textbook.plain) Textbook.fs_signing
    Textbook.payload (Some "B.pem") (text_lit "04E906016HA") (text_lit "test") =
  Ok (PyBytes (Textbook.plain ++
               Textbook.signature_of Textbook.plain Textbook.priv_A ++
               Textbook.signature_of Textbook.plain Textbook.priv_B)).
Proof. split; vm_compute; reflexivity. Qed.

(** C7 (the code departs from it on the composing side): composing without
    a secondary key yields no image whose two slots could be compared; the
    call raises before the first signature is made. *)
Theorem sign_bin_single_signer_raises :
  sign_bin module_globals Textbook.fs_signing Textbook.payload None
    (text_lit "04E906016HA") (text_lit "test") = Raise (NameError "input_bin").
Proof. vm_compute. reflexivity. Qed.

(** With [input_bin] bound by hand, line 29 does copy the first signature
    into the second slot. *)
Example sign_bin_patched_single_signer :
  sign_bin (Textbook.patched_globals (Textbook.payload ++ Textbook.metadata))
    Textbook.fs_signing Textbook.payload None
    (text_lit "04E906016HA") (text_lit "test") = Ok (PyBytes Textbook.single_signed).
Proof. vm_compute. reflexivity. Qed.

(* ===================================================================== *)
(** * Further properties of [lib/signature_tools.py] *)
(* ===================================================================== *)

(** ** The metadata record on arbitrary text *)

Lemma utf8_codepoint_length (c : codepoint) (b : list byte) :
  utf8_codepoint c = Ok b ->
  (1 <= length b <= 4)%nat /\ (length b = 1%nat <-> (c < 128)%N).
Proof.
  unfold utf8_codepoint.
  destruct (c <? 128)%N eqn:E1.
  { intros [= <-]. apply N.ltb_lt in E1. simpl. split; [lia | tauto]. }
  apply N.ltb_ge in E1.
  destruct (c <? 2048)%N.
  { intros [= <-]. simpl. split; [lia |]. split; [discriminate | lia]. }
  destruct ((55296 <=? c) && (c <=? 57343))%N; [discriminate |].
  destruct (c <? 65536)%N.
  { intros [= <-]. simpl. split; [lia |]. split; [discriminate | lia]. }
  destruct (c <? 1114112)%N; [| discriminate].
  intros [= <-]. simpl. split; [lia |]. split; [discriminate | lia].
Qed.

Lemma encodable_or_not (c : codepoint) : encodable c \/ ~ encodable c.
Proof. unfold encodable. lia. Qed.

Lemma utf8_codepoint_encodable (c : codepoint) :
  (encodable c -> exists b, utf8_codepoint c = Ok b) /\
  (~ encodable c -> utf8_codepoint c = Raise UnicodeEncodeError).
Proof.
  unfold utf8_codepoint, encodable.
  destruct (c <? 128)%N eqn:E1;
    [apply N.ltb_lt in E1; split; [eauto | lia] | apply N.ltb_ge in E1].
  destruct (c <? 2048)%N eqn:E2;
    [apply N.ltb_lt in E2; split; [eauto | lia] | apply N.ltb_ge in E2].
  destruct ((55296 <=? c) && (c <=? 57343))%N eqn:E3.
  { apply andb_true_iff in E3 as [Ea Eb].
    apply N.leb_le in Ea, Eb. split; [lia | reflexivity]. }
  apply andb_false_iff in E3.
  assert (c < 55296 \/ 57343 < c)%N as Hs.
  { destruct E3 as [E | E]; apply N.leb_gt in E; lia. }
  destruct (c <? 65536)%N eqn:E4;
    [apply N.ltb_lt in E4; split; [eauto | lia] | apply N.ltb_ge in E4].
  destruct (c <? 1114112)%N eqn:E5;
    [apply N.ltb_lt in E5; split; [eauto | lia] | apply N.ltb_ge in E5].
  split; [lia | reflexivity].
Qed.

Lemma encode_utf8_length (s : text) (b : list byte) :
  encode_utf8 s = Ok b ->
  (length s <= length b <= 4 * length s)%nat /\
  (length b = length s <-> is_ascii s).
Proof.
  revert b. induction s as [| c s IH]; intros b.
  - intros [= <-]. simpl. split; [lia |]. split; [constructor | reflexivity].
  - simpl. destruct (utf8_codepoint c) as [bc |] eqn:Ec; [| discriminate].
    simpl. destruct (encode_utf8 s) as [bs |]; [| discriminate].
    simpl. intros [= <-].
    destruct (utf8_codepoint_length c bc Ec) as [Hc1 Hc2].
    destruct (IH bs eq_refl) as [Hs1 Hs2].
    rewrite length_app. split; [lia |]. split.
    + intros Hl. constructor; [apply Hc2; lia | apply Hs2; lia].
    + intros Ha. inversion Ha as [| ? ? Hc Hs]; subst.
      apply Hc2 in Hc. apply Hs2 in Hs. lia.
Qed.

Lemma encode_utf8_encodable (s : text) :
  (Forall encodable s -> exists b, encode_utf8 s = Ok b) /\
  (~ Forall encodable s -> encode_utf8 s = Raise UnicodeEncodeError).
Proof.
  induction s as [| c s [IH1 IH2]].
  - split; [intros _; eexists; reflexivity | intros H; destruct H; constructor].
  - destruct (utf8_codepoint_encodable c) as [Hc1 Hc2]. split.
    + intros H. inversion H as [| ? ? Hc Hs]; subst.
      destruct (Hc1 Hc) as [bc Ebc]. destruct (IH1 Hs) as [bs Ebs].
      simpl. rewrite Ebc. simpl. rewrite Ebs. simpl. eauto.
    + intros H. simpl.
      destruct (utf8_codepoint c) as [bc |] eqn:Ec.
      * simpl. rewrite IH2; [reflexivity |].
        intros Hs. apply H. constructor; [| exact Hs].
        destruct (encodable_or_not c) as [Hc | Hc]; [exact Hc |].
        discriminate (Hc2 Hc).
      * simpl. destruct (encodable_or_not c) as [Hc | Hc].
        -- destruct (Hc1 Hc) as [bc Ebc]. discriminate Ebc.
        -- exact (Hc2 Hc).
Qed.

Lemma ljust_spaces_forall (P : codepoint -> Prop) (s : text) (n : nat) :
  P SPACE -> Forall P (ljust s n SPACE) <-> Forall P s.
Proof.
  intros Hsp. unfold ljust. rewrite Forall_app. split; [tauto |].
  intros Hs. split; [exact Hs | apply Forall_replicate, Hsp].
Qed.

Lemma space_encodable : encodable SPACE.
Proof. unfold encodable, SPACE. lia. Qed.

Lemma space_ascii : (SPACE < 128)%N.
Proof. unfold SPACE. lia. Qed.

Lemma encode_utf8_cases (s : text) :
  (Forall encodable s /\ exists b, encode_utf8 s = Ok b) \/
  (~ Forall encodable s /\ encode_utf8 s = Raise UnicodeEncodeError).
Proof.
  destruct (encode_utf8_encodable s) as [H1 H2].
  assert (Forall encodable s \/ ~ Forall encodable s) as [F | F].
  { induction s as [| c s IH]; [left; constructor |].
    destruct (encodable_or_not c) as [Hc | Hc].
    - assert (Forall encodable s \/ ~ Forall encodable s) as [Hs | Hs].
      { apply IH; apply encode_utf8_encodable. }
      + left. constructor; assumption.
      + right. intros H. inversion H; subst. contradiction.
    - right. intros H. inversion H; subst. contradiction. }
  - left. split; [exact F | exact (H1 F)].
  - right. split; [exact F | exact (H2 F)].
Qed.

(** X3: [build_metadata] returns exactly when none of the characters it keeps
    (the first 15 of the box code, the first 70 of the notes) is a
    surrogate; otherwise it raises [UnicodeEncodeError], and nothing
    else. *)
Theorem build_metadata_returns_iff (boxcode notes : text) :
  ((exists m, build_metadata boxcode notes = Ok m) <->
   Forall encodable (take 15 boxcode) /\ Forall encodable (take 70 notes)) /\
  (forall e, build_metadata boxcode notes = Raise e -> e = UnicodeEncodeError).
Proof.
  unfold build_metadata.
  rewrite (py_slice_front boxcode 15), (py_slice_front notes 70) by lia.
  change (Z.to_nat 15) with 15%nat. change (Z.to_nat 70) with 70%nat.
  pose proof (ljust_spaces_forall encodable (take 15 boxcode) 15 space_encodable) as Hb.
  pose proof (ljust_spaces_forall encodable (take 70 notes) 70 space_encodable) as Hn.
  destruct (encode_utf8_cases (ljust (take 15 boxcode) 15 SPACE))
    as [[Fb [eb ->]] | [Fb ->]]; cbn [bind_result].
  - destruct (encode_utf8_cases (ljust (take 70 notes) 70 SPACE))
      as [[Fn [en ->]] | [Fn ->]]; cbn [bind_result].
    + split; [| discriminate]. split; [intros _; tauto | eauto].
    + split; [| intros e [= <-]; reflexivity].
      split; [intros [m Hm]; discriminate Hm | tauto].
  - split; [| intros e [= <-]; reflexivity].
    split; [intros [m Hm]; discriminate Hm | tauto].
Qed.

(** X2: Whenever [build_metadata] returns, the record begins with the tag and
    has between 94 and 349 bytes; it has the 94 bytes that [read_bytes]
    counts on exactly when every character kept (the first 15 of the box
    code, the first 70 of the notes) is ASCII. *)
Theorem build_metadata_width (boxcode notes : text) (m : list byte) :
  build_metadata boxcode notes = Ok m ->
  bytes_lit "METADATA:" `prefix_of` m /\
  (94 <= length m <= 349)%nat /\
  (length m = 94%nat <-> is_ascii (take 15 boxcode) /\ is_ascii (take 70 notes)).
Proof.
  unfold build_metadata.
  rewrite (py_slice_front boxcode 15), (py_slice_front notes 70) by lia.
  change (Z.to_nat 15) with 15%nat. change (Z.to_nat 70) with 70%nat.
  destruct (encode_utf8 (ljust (take 15 boxcode) 15 SPACE)) as [eb |] eqn:Eb;
    [| discriminate].
  destruct (encode_utf8 (ljust (take 70 notes) 70 SPACE)) as [en |] eqn:En;
    [| discriminate].
  cbn [bind_result]. intros [= <-].
  destruct (encode_utf8_length _ _ Eb) as [Lb Ab].
  destruct (encode_utf8_length _ _ En) as [Ln An].
  rewrite ljust_take_length in Lb, Ln, Ab, An.
  unfold is_ascii in Ab, An.
  rewrite (ljust_spaces_forall _ _ _ space_ascii) in Ab.
  rewrite (ljust_spaces_forall _ _ _ space_ascii) in An.
  split; [eexists; reflexivity |].
  cbn [length]. rewrite length_app.
  split; [lia |]. unfold is_ascii. rewrite <- Ab, <- An. lia.
Qed.

Lemma build_metadata_width_witness :
  exists m,
    build_metadata [233%N] (text_lit "test") = Ok m /\
    bytes_lit "METADATA:" `prefix_of` m /\
    (94 <= length m <= 349)%nat /\
    (length m = 94%nat <->
     is_ascii (take 15 [233%N]) /\ is_ascii (take 70 (text_lit "test"))).
Proof.
  eexists. split; [vm_compute; reflexivity |].
  apply (build_metadata_width [233%N] (text_lit "test")).
  vm_compute. reflexivity.
Defined.

(** X4: Only the first 15 characters of the box code and the first 70 of the
    notes reach the record. *)
Theorem build_metadata_keeps_15_and_70 (boxcode notes : text) :
  build_metadata boxcode notes =
  build_metadata (take 15 boxcode) (take 70 notes).
Proof.
  unfold build_metadata.
  rewrite (py_slice_front boxcode 15), (py_slice_front notes 70) by lia.
  rewrite (py_slice_front (take 15 boxcode) 15) by lia.
  rewrite (py_slice_front (take 70 notes) 70) by lia.
  change (Z.to_nat 15) with 15%nat. change (Z.to_nat 70) with 70%nat.
  rewrite !take_take. reflexivity.
Qed.

Lemma ljust_take_spaces (s : text) (n j : nat) :
  (length s <= n)%nat ->
  ljust (take n (s ++ replicate j SPACE)) n SPACE = ljust (take n s) n SPACE.
Proof.
  intros Hl. unfold ljust.
  rewrite take_app, take_replicate, (take_ge s n) by lia.
  rewrite length_app, length_replicate, <- app_assoc. f_equal.
  rewrite <- replicate_add. f_equal. lia.
Qed.

(** X5: The record does not tell trailing spaces from padding: spaces added
    at the end of a box code of at most 15 characters, or of notes of at
    most 70, leave it unchanged. *)
Theorem build_metadata_trailing_spaces (boxcode notes : text) (j k : nat) :
  (length boxcode <= 15)%nat -> (length notes <= 70)%nat ->
  build_metadata (boxcode ++ replicate j SPACE) (notes ++ replicate k SPACE) =
  build_metadata boxcode notes.
Proof.
  intros Hb Hn. unfold build_metadata.
  rewrite (py_slice_front boxcode 15), (py_slice_front notes 70) by lia.
  rewrite (py_slice_front (boxcode ++ _) 15), (py_slice_front (notes ++ _) 70) by lia.
  change (Z.to_nat 15) with 15%nat. change (Z.to_nat 70) with 70%nat.
  rewrite (ljust_take_spaces boxcode 15 j Hb), (ljust_take_spaces notes 70 k Hn).
  reflexivity.
Qed.

Lemma build_metadata_trailing_spaces_witness :
  build_metadata (text_lit "04E906016HA" ++ replicate 2 SPACE)
                 (text_lit "test" ++ replicate 100 SPACE) =
  build_metadata (text_lit "04E906016HA") (text_lit "test").
Proof.
  apply (build_metadata_trailing_spaces (text_lit "04E906016HA") (text_lit "test")
           2 100); vm_compute; lia.
Defined.

(** X1: On ASCII text the record has the fixed layout: the tag, the box code
    cut to 15 characters and padded with spaces to 15 bytes, the notes cut
    to 70 characters and padded to 70 bytes, 94 bytes in all. *)
Theorem build_metadata_ascii_layout (boxcode notes : text) :
  is_ascii boxcode -> is_ascii notes ->
  exists m,
    build_metadata boxcode notes = Ok m /\
    m = bytes_lit "METADATA:" ++
        (map byte_of_N (take 15 boxcode) ++
           replicate (15 - length boxcode) " "%byte) ++
        (map byte_of_N (take 70 notes) ++
           replicate (70 - length notes) " "%byte) /\
    length m = 94%nat.
Proof. apply build_metadata_ascii. Qed.

Lemma build_metadata_ascii_layout_witness :
  exists m,
    build_metadata (text_lit "0123456789ABCDEFGHIJ") (text_lit "test") = Ok m /\
    m = bytes_lit "METADATA:" ++
        (map byte_of_N (take 15 (text_lit "0123456789ABCDEFGHIJ")) ++
           replicate (15 - length (text_lit "0123456789ABCDEFGHIJ")) " "%byte) ++
        (map byte_of_N (take 70 (text_lit "test")) ++
           replicate (70 - length (text_lit "test")) " "%byte) /\
    length m = 94%nat.
Proof.
  apply (build_metadata_ascii_layout (text_lit "0123456789ABCDEFGHIJ")
           (text_lit "test")).
  - unfold is_ascii, text_lit. simpl. repeat constructor.
  - unfold is_ascii, text_lit. simpl. repeat constructor.
Defined.

(** ** Loading a well-formed image *)

Lemma py_slice_mid {A} (l : list A) (a b : nat) :
  (0 < a)%nat -> (0 < b)%nat ->
  py_slice l (Some (- Z.of_nat a)) (Some (- Z.of_nat b)) =
  take ((length l - b) - (length l - a)) (drop (length l - a) l).
Proof.
  intros Ha Hb. unfold py_slice, slice_bound.
  destruct (- Z.of_nat a <? 0) eqn:Ea; [| apply Z.ltb_ge in Ea; lia].
  destruct (- Z.of_nat b <? 0) eqn:Eb; [| apply Z.ltb_ge in Eb; lia].
  f_equal; [lia | f_equal; lia].
Qed.

(** The slices of lines 63, 66, 67 and 70 as [take] and [drop]. *)
Lemma slice_to_m256 {A} (l : list A) :
  py_slice l (Some 0) (Some (-256)) = take (length l - 256) l.
Proof. apply (py_slice_front_neg l 256). lia. Qed.

Lemma slice_m256_m128 {A} (l : list A) :
  py_slice l (Some (-256)) (Some (-128)) =
  take ((length l - 128) - (length l - 256)) (drop (length l - 256) l).
Proof. apply (py_slice_mid l 256 128); lia. Qed.

Lemma slice_from_m128 {A} (l : list A) :
  py_slice l (Some (-128)) None = drop (length l - 128) l.
Proof. apply (py_slice_back l 128). lia. Qed.

(** An image laid out as payload, 94 bytes of tagged metadata and two
    slots of 128 bytes is cut by [read_bytes] along those lines. *)
Lemma layout_slices (payload meta s1 s2 : list byte) :
  length meta = 94%nat ->
  bytes_lit "METADATA:" `prefix_of` meta ->
  length s1 = 128%nat -> length s2 = 128%nat ->
  let bin_data := payload ++ meta ++ s1 ++ s2 in
  has_sig_block bin_data = true /\
  slot1 bin_data = s1 /\
  slot2 bin_data = s2 /\
  signed_content bin_data = payload ++ meta /\
  found_records bin_data =
    [ (WARNING, Text "Found signature block in bin file, validating");
      (INFO, StrOfBytes meta) ] /\
  take (length bin_data - 350) bin_data = payload.
Proof.
  intros Hm Htag H1 H2 bin_data.
  assert (length bin_data = (length payload + 350)%nat) as Hlen.
  { unfold bin_data. rewrite !length_app. lia. }
  assert (py_slice bin_data (Some (-350)) None = meta ++ s1 ++ s2) as Hblock.
  { rewrite sig_block_drop, Hlen.
    replace (length payload + 350 - 350)%nat with (length payload) by lia.
    unfold bin_data. apply drop_app_length. }
  assert (length (meta ++ s1 ++ s2) = 350%nat) as Hbl.
  { rewrite !length_app. lia. }
  split; [| split; [| split; [| split; [| split]]]].
  - apply has_sig_block_spec. unfold tagged, last_350.
    rewrite <- sig_block_drop, Hblock.
    destruct Htag as [k ->]. rewrite <- app_assoc. eexists. reflexivity.
  - unfold slot1. rewrite Hblock.
    rewrite slice_m256_m128, Hbl.
    replace (350 - 256)%nat with (length meta) by lia.
    rewrite drop_app_length.
    replace (350 - 128 - length meta)%nat with (length s1) by lia.
    apply take_app_length.
  - unfold slot2. rewrite Hblock.
    rewrite slice_from_m128, Hbl.
    replace (350 - 128)%nat with (length (meta ++ s1)) by (rewrite length_app; lia).
    rewrite (app_assoc meta s1 s2). apply drop_app_length.
  - unfold signed_content.
    rewrite slice_to_m256, Hlen.
    replace (length payload + 350 - 256)%nat with (length (payload ++ meta))
      by (rewrite length_app; lia).
    unfold bin_data. rewrite (app_assoc payload meta). apply take_app_length.
  - unfold found_records. rewrite Hblock.
    rewrite slice_to_m256, Hbl.
    replace (350 - 256)%nat with (length meta) by lia.
    rewrite take_app_length. reflexivity.
  - rewrite Hlen.
    replace (length payload + 350 - 350)%nat with (length payload) by lia.
    unfold bin_data. apply take_app_length.
Qed.

(** X6: The parser's half of the round trip: from an image laid out as
    payload ++ metadata ++ sig1 ++ sig2 (94-byte tagged metadata, 128-byte
    slots) [read_bytes] returns the payload, logs the metadata, checks sig1
    against payload ++ metadata with the trust anchor, and then either
    finds the slots equal, or has no key for the second one, or checks sig2
    against the same content with the caller's key. *)
Theorem read_bytes_layout `{crypto : PKCS115}
    (fs : gmap string (list byte)) (file_path : string)
    (public_key_file : option string) (payload meta s1 s2 : list byte) :
  fs !! file_path = Some (payload ++ meta ++ s1 ++ s2) ->
  length meta = 94%nat ->
  bytes_lit "METADATA:" `prefix_of` meta ->
  length s1 = 128%nat -> length s2 = 128%nat ->
  key_loads fs VW_FLASH_PUB = true ->
  (s1 <> s2 -> truthy public_key_file = true ->
   key_loads fs (default "" public_key_file) = true) ->
  exists ok1 last,
    verify_bin fs (payload ++ meta) s1 VW_FLASH_PUB = Ok ok1 /\
    read_bytes fs file_path public_key_file =
    (Ok payload,
     [ (WARNING, Text "Found signature block in bin file, validating");
       (INFO, StrOfBytes meta); first_record ok1; last ]) /\
    (s1 = s2 -> last = no_secondary_record) /\
    (s1 <> s2 -> truthy public_key_file = false ->
     last = unchecked_secondary_record) /\
    (s1 <> s2 -> truthy public_key_file = true ->
     exists ok2,
       verify_bin fs (payload ++ meta) s2 (default "" public_key_file) = Ok ok2 /\
       last = second_record ok2).
Proof.
  intros Hf Hm Htag H1 H2 Hk1 Hk2.
  destruct (layout_slices payload meta s1 s2 Hm Htag H1 H2)
    as (Hsb & Hs1 & Hs2 & Hc & Hrec & Hstrip).
  set (bin_data := payload ++ meta ++ s1 ++ s2) in *.
  destruct (verify_bin_key_loads fs (payload ++ meta) s1 VW_FLASH_PUB Hk1)
    as [ok1 Hv1].
  exists ok1.
  assert (verify_bin fs (signed_content bin_data) (slot1 bin_data) VW_FLASH_PUB
          = Ok ok1) as Hv1' by (rewrite Hc, Hs1; exact Hv1).
  destruct (decide (s1 = s2)) as [Heq | Hne].
  - exists no_secondary_record. split; [exact Hv1 |]. split.
    + rewrite (read_bytes_same_slots fs file_path bin_data Hf public_key_file ok1
                 Hsb Hv1') by (rewrite Hs1, Hs2; exact Heq).
      rewrite Hstrip, Hrec. reflexivity.
    + split; [reflexivity |]. split; intros; contradiction.
  - assert (slot1 bin_data <> slot2 bin_data) as Hne' by (rewrite Hs1, Hs2; exact Hne).
    destruct (truthy public_key_file) eqn:Ht.
    + destruct (verify_bin_key_loads fs (payload ++ meta) s2
                  (default "" public_key_file) (Hk2 Hne eq_refl)) as [ok2 Hv2].
      exists (second_record ok2). split; [exact Hv1 |]. split.
      * rewrite (read_bytes_secondary_checked fs file_path bin_data Hf
                   public_key_file ok1 ok2 Hsb Hv1' Hne' Ht)
          by (rewrite Hc, Hs2; exact Hv2).
        rewrite Hstrip, Hrec. reflexivity.
      * split; [intros; contradiction |]. split; [discriminate |].
        intros _ _. exists ok2. split; [exact Hv2 | reflexivity].
    + exists unchecked_secondary_record. split; [exact Hv1 |]. split.
      * rewrite (read_bytes_no_public_key fs file_path bin_data Hf
                   public_key_file ok1 Hsb Hv1' Hne' Ht).
        rewrite Hstrip, Hrec. reflexivity.
      * split; [intros; contradiction |]. split; [reflexivity | discriminate].
Qed.

Lemma read_bytes_layout_witness :
  exists ok1 last,
    verify_bin (Textbook.fs_with Textbook.co_signed)
      (Textbook.payload ++ Textbook.metadata)
      (Textbook.signature_of (Textbook.payload ++ Textbook.metadata) Textbook.priv_A)
      VW_FLASH_PUB = Ok ok1 /\
    read_bytes (Textbook.fs_with Textbook.co_signed) "fw.bin" (Some "B.pub") =
    (Ok Textbook.payload,
     [ (WARNING, Text "Found signature block in bin file, validating");
       (INFO, StrOfBytes Textbook.metadata); first_record ok1; last ]) /\
    (Textbook.signature_of (Textbook.payload ++ Textbook.metadata) Textbook.priv_A =
     Textbook.signature_of (Textbook.payload ++ Textbook.metadata) Textbook.priv_B ->
     last = no_secondary_record) /\
    (Textbook.signature_of (Textbook.payload ++ Textbook.metadata) Textbook.priv_A <>
     Textbook.signature_of (Textbook.payload ++ Textbook.metadata) Textbook.priv_B ->
     truthy (Some "B.pub") = false -> last = unchecked_secondary_record) /\
    (Textbook.signature_of (Textbook.payload ++ Textbook.metadata) Textbook.priv_A <>
     Textbook.signature_of (Textbook.payload ++ Textbook.metadata) Textbook.priv_B ->
     truthy (Some "B.pub") = true ->
     exists ok2,
       verify_bin (Textbook.fs_with Textbook.co_signed)
         (Textbook.payload ++ Textbook.metadata)
         (Textbook.signature_of (Textbook.payload ++ Textbook.metadata) Textbook.priv_B)
         (default "" (Some "B.pub")) = Ok ok2 /\
       last = second_record ok2).
Proof.
  apply (read_bytes_layout (Textbook.fs_with Textbook.co_signed) "fw.bin"
           (Some "B.pub") Textbook.payload Textbook.metadata
           (Textbook.signature_of (Textbook.payload ++ Textbook.metadata) Textbook.priv_A)
           (Textbook.signature_of (Textbook.payload ++ Textbook.metadata) Textbook.priv_B)).
  - vm_compute. reflexivity.
  - vm_compute. reflexivity.
  - exists (drop 9 Textbook.metadata). vm_compute. reflexivity.
  - vm_compute. reflexivity.
  - vm_compute. reflexivity.
  - vm_compute. reflexivity.
  - intros _ _. vm_compute. reflexivity.
Defined.



(** ** When loading raises *)

Section Raising.

Context `{crypto : PKCS115}.

Lemma verify_bin_key_fails (fs : gmap string (list byte))
    (bin_file signature : list byte) (path : string) :
  key_loads fs path = false ->
  exists e, verify_bin fs bin_file signature path = Raise e.
Proof.
  unfold key_loads, verify_bin, read_file.
  destruct (fs !! path) as [b |]; cbn [bind_result]; [| eauto].
  destruct (RSA_import_key b) as [k | e]; cbn [bind_result]; [discriminate | eauto].
Qed.

(** X8: [read_bytes] returns exactly in these cases: the stream carries no tag;
    or the trust anchor loads and either the two slots are equal, or no
    public key was named, or the named public key loads.  In every other
    case it raises. *)
Theorem read_bytes_returns_iff (fs : gmap string (list byte))
    (file_path : string) (public_key_file : option string)
    (bin_data : list byte) :
  fs !! file_path = Some bin_data ->
  (exists out, fst (read_bytes fs file_path public_key_file) = Ok out) <->
  (~ tagged bin_data \/
   (key_loads fs VW_FLASH_PUB = true /\
    (slot1 bin_data = slot2 bin_data \/
     truthy public_key_file = false \/
     key_loads fs (default "" public_key_file) = true))).
Proof.
  intros Hf. split.
  - intros [out Hout].
    destruct (has_sig_block bin_data) eqn:Htag;
      [| left; apply has_sig_block_false, Htag].
    right.
    destruct (key_loads fs VW_FLASH_PUB) eqn:Hk1.
    2: { destruct (verify_bin_key_fails fs (signed_content bin_data)
                     (slot1 bin_data) VW_FLASH_PUB Hk1) as [e He].
         rewrite (read_bytes_primary_raises fs file_path bin_data Hf
                    public_key_file e Htag He) in Hout.
         discriminate Hout. }
    split; [reflexivity |].
    destruct (verify_bin_key_loads fs (signed_content bin_data) (slot1 bin_data)
                VW_FLASH_PUB Hk1) as [ok1 Hv1].
    destruct (decide (slot1 bin_data = slot2 bin_data)) as [Hs | Hs]; [tauto |].
    destruct (truthy public_key_file) eqn:Ht; [| tauto].
    destruct (key_loads fs (default "" public_key_file)) eqn:Hk2; [tauto |].
    destruct (verify_bin_key_fails fs (signed_content bin_data)
                (slot2 bin_data) (default "" public_key_file) Hk2) as [e He].
    rewrite (read_bytes_secondary_raises fs file_path bin_data Hf
               public_key_file ok1 e Htag Hv1 Hs Ht He) in Hout.
    discriminate Hout.
  - intros [Hn | [Hk1 Hrest]].
    + apply has_sig_block_false in Hn.
      rewrite (read_bytes_untagged fs file_path bin_data Hf public_key_file Hn).
      eexists. reflexivity.
    + destruct (has_sig_block bin_data) eqn:Htag.
      2: { rewrite (read_bytes_untagged fs file_path bin_data Hf
                      public_key_file Htag). eexists. reflexivity. }
      destruct (read_bytes_tagged_returns fs file_path bin_data Hf
                  public_key_file Htag Hk1) as (ok1 & log & _ & ->).
      { intros Hs Ht. destruct Hrest as [H | [H | H]];
          [contradiction | congruence | exact H]. }
      eexists. reflexivity.
Qed.

(** X9: Without the trust-anchor file no tagged stream can be loaded, whatever
    public key the caller names: [FileNotFoundError] for
    "./data/VW_Flash.pub" is raised once the block and its metadata have
    been logged. *)
Theorem read_bytes_missing_trust_anchor (fs : gmap string (list byte))
    (file_path : string) (public_key_file : option string)
    (bin_data : list byte) :
  fs !! file_path = Some bin_data ->
  tagged bin_data ->
  fs !! "./data/VW_Flash.pub" = None ->
  read_bytes fs file_path public_key_file =
  (Raise (FileNotFoundError "./data/VW_Flash.pub"), found_records bin_data).
Proof.
  intros Hf Htag Hk. apply has_sig_block_spec in Htag.
  apply (read_bytes_primary_raises fs file_path bin_data Hf public_key_file _ Htag).
  apply verify_bin_missing_key_file. exact Hk.
Qed.

(** X10: An empty path for [public_key_file] counts as no path: the second
    signature is then never checked. *)
Theorem read_bytes_empty_key_path (fs : gmap string (list byte))
    (file_path : string) :
  read_bytes fs file_path (Some "") = read_bytes fs file_path None.
Proof.
  unfold read_bytes.
  destruct (read_file fs file_path) as [bin_data | e]; [| reflexivity].
  cbn [lift_result bind_logged truthy]. reflexivity.
Qed.

End Raising.

Lemma read_bytes_returns_iff_witness :
  (exists out,
     fst (read_bytes (Textbook.fs_with Textbook.co_signed) "fw.bin"
            (Some "missing.pub")) = Ok out) <->
  (~ tagged Textbook.co_signed \/
   (key_loads (Textbook.fs_with Textbook.co_signed) VW_FLASH_PUB = true /\
    (slot1 Textbook.co_signed = slot2 Textbook.co_signed \/
     truthy (Some "missing.pub") = false \/
     key_loads (Textbook.fs_with Textbook.co_signed)
       (default "" (Some "missing.pub")) = true))).
Proof.
  apply (read_bytes_returns_iff (Textbook.fs_with Textbook.co_signed) "fw.bin"
           (Some "missing.pub") Textbook.co_signed).
  vm_compute. reflexivity.
Defined.

(** At that input the right-hand side fails, and the load raises. *)
Example read_bytes_missing_public_key :
  read_bytes (Textbook.fs_with Textbook.co_signed) "fw.bin" (Some "missing.pub") =
  (Raise (FileNotFoundError "missing.pub"),
   found_records Textbook.co_signed ++ [first_record true]).
Proof. vm_compute. reflexivity. Qed.

Lemma read_bytes_missing_trust_anchor_witness :
  read_bytes (<["fw.bin" := Textbook.single_signed]> ∅) "fw.bin" (Some "B.pub") =
  (Raise (FileNotFoundError "./data/VW_Flash.pub"),
   found_records Textbook.single_signed).
Proof.
  apply (read_bytes_missing_trust_anchor (<["fw.bin" := Textbook.single_signed]> ∅)
           "fw.bin" (Some "B.pub") Textbook.single_signed).
  - vm_compute. reflexivity.
  - apply has_sig_block_spec. vm_compute. reflexivity.
  - vm_compute. reflexivity.
Defined.

(* ===================================================================== *)
(** * Properties of [VW_Flash_GUI.py] *)
(* ===================================================================== *)

(** ** Interface specifiers *)

Lemma str_split_0 (sep : codepoint) (s : text) :
  GUI.str_split sep 0 s = [s].
Proof.
  induction s as [| c s IH]; [reflexivity |].
  simpl. rewrite IH. destruct (c =? sep)%N; reflexivity.
Qed.

Lemma str_split_no_sep (sep : codepoint) (n : nat) (s : text) :
  sep ∉ s -> GUI.str_split sep n s = [s].
Proof.
  induction s as [| c s IH]; [reflexivity |].
  intros Hn. apply not_elem_of_cons in Hn as [Hc Hs].
  simpl. destruct (c =? sep)%N eqn:E.
  - apply N.eqb_eq in E. congruence.
  - rewrite (IH Hs). reflexivity.
Qed.

Lemma str_split_first (sep : codepoint) (n : nat) (a b : text) :
  sep ∉ a ->
  GUI.str_split sep (S n) (a ++ sep :: b) = a :: GUI.str_split sep n b.
Proof.
  induction a as [| c a IH]; intros Hn.
  - simpl. rewrite N.eqb_refl. reflexivity.
  - apply not_elem_of_cons in Hn as [Hc Ha].
    simpl. destruct (c =? sep)%N eqn:E.
    + apply N.eqb_eq in E. congruence.
    + rewrite (IH Ha). reflexivity.
Qed.

Lemma split_interface_name_plain (s : text) :
  GUI.UNDERSCORE ∉ s ->
  GUI.split_interface_name s = GUI.Returns (s, None).
Proof.
  intros Hn. unfold GUI.split_interface_name.
  rewrite (str_split_no_sep _ 1 s Hn). reflexivity.
Qed.

Lemma split_interface_name_cut (a b : text) :
  GUI.UNDERSCORE ∉ a ->
  GUI.split_interface_name (a ++ GUI.UNDERSCORE :: b) = GUI.Returns (a, Some b).
Proof.
  intros Hn. unfold GUI.split_interface_name.
  rewrite (str_split_first _ 0 a b Hn), str_split_0. reflexivity.
Qed.

(** X11: [split_interface_name] never raises and cuts at the first underscore:
    the first component has no underscore, the pieces put together again
    (with the underscore, when there was one) are the argument, and the
    second component is [None] exactly when the argument has no
    underscore. *)
Theorem split_interface_name_spec (interface_string : text) :
  exists interface interface_name,
    GUI.split_interface_name interface_string =
      GUI.Returns (interface, interface_name) /\
    (GUI.UNDERSCORE ∉ interface) /\
    interface_string =
      interface ++ (match interface_name with
                    | Some rest => GUI.UNDERSCORE :: rest
                    | None => []
                    end) /\
    (interface_name = None <-> GUI.UNDERSCORE ∉ interface_string).
Proof.
  destruct (decide (GUI.UNDERSCORE ∈ interface_string)) as [Hin | Hn].
  - destruct (list_elem_of_split_l interface_string GUI.UNDERSCORE Hin)
      as (a & b & -> & Ha).
    exists a, (Some b). split; [apply split_interface_name_cut, Ha |].
    split; [exact Ha |]. split; [reflexivity |].
    split; [discriminate | intros H; contradiction].
  - exists interface_string, None.
    split; [apply split_interface_name_plain, Hn |].
    split; [exact Hn |]. split; [symmetry; apply app_nil_r |].
    split; [intros _; exact Hn | reflexivity].
Qed.

(** X12: A specifier made of a prefix without underscore, an underscore and
    anything else splits back into the prefix and the rest, underscores in
    the rest included. *)
Theorem split_interface_name_joined (prefix rest : text) :
  GUI.UNDERSCORE ∉ prefix ->
  GUI.split_interface_name (prefix ++ GUI.UNDERSCORE :: rest) =
  GUI.Returns (prefix, Some rest).
Proof. apply split_interface_name_cut. Qed.

Lemma split_interface_name_joined_witness :
  GUI.split_interface_name
    (text_lit "USBISOTP" ++ GUI.UNDERSCORE :: text_lit "/dev/tty_USB0") =
  GUI.Returns (text_lit "USBISOTP", Some (text_lit "/dev/tty_USB0")).
Proof.
  apply (split_interface_name_joined (text_lit "USBISOTP") (text_lit "/dev/tty_USB0")).
  vm_compute. intros H. repeat (apply elem_of_cons in H as [H | H]; [discriminate |]).
  apply elem_of_nil in H. exact H.
Defined.

Example split_interface_name_samples :
  GUI.split_interface_name (text_lit "SocketCAN_can0") =
    GUI.Returns (text_lit "SocketCAN", Some (text_lit "can0")) /\
  GUI.split_interface_name (text_lit "J2534") =
    GUI.Returns (text_lit "J2534", None) /\
  GUI.split_interface_name [] = GUI.Returns ([], None) /\
  GUI.split_interface_name (text_lit "_a_b") =
    GUI.Returns ([], Some (text_lit "a_b")).
Proof. repeat split; vm_compute; reflexivity. Qed.

(** ** Enumerating interfaces *)

Lemma registry_entry_returns (device : option (gmap string GUI.value))
    (n : GUI.value) (spec : text) :
  GUI.registry_entry device = GUI.Returns (n, spec) <->
  exists key lib,
    device = Some key /\
    key !! "Name" = Some n /\
    key !! "FunctionLibrary" = Some (GUI.VStr lib) /\
    spec = text_lit "J2534_" ++ lib.
Proof.
  unfold GUI.registry_entry, GUI.query_value. split.
  - destruct device as [key |]; cbn [GUI.bind_outcome]; [| discriminate].
    destruct (key !! "Name") as [v |] eqn:En; cbn [GUI.bind_outcome]; [| discriminate].
    destruct (key !! "FunctionLibrary") as [fl |] eqn:Ef; cbn [GUI.bind_outcome];
      [| discriminate].
    destruct fl; cbn [GUI.str_add GUI.bind_outcome]; try discriminate.
    intros [= <- <-]. exists key, s. auto.
  - intros (key & lib & -> & Hn & Hf & ->). cbn [GUI.bind_outcome].
    rewrite Hn. cbn [GUI.bind_outcome]. rewrite Hf. reflexivity.
Qed.

Lemma enumerate_devices_spec (devices : list (option (gmap string GUI.value)))
    (acc : list (GUI.value * text)) :
  fst (GUI.enumerate_devices devices acc) =
    acc ++ omap (fun d => match GUI.registry_entry d with
                          | GUI.Returns e => Some e
                          | GUI.Raises _ => None
                          end) devices /\
  (length (fst (GUI.enumerate_devices devices acc)) +
   length (snd (GUI.enumerate_devices devices acc)) =
   length acc + length devices)%nat /\
  Forall (fun r => fst r = GUI.LogError) (snd (GUI.enumerate_devices devices acc)).
Proof.
  revert acc. induction devices as [| d devices IH]; intros acc.
  - simpl. rewrite app_nil_r. split; [reflexivity |]. split; [lia | constructor].
  - simpl. destruct (GUI.registry_entry d) as [e | err].
    + destruct (IH (acc ++ [e])) as (H1 & H2 & H3).
      rewrite H1, <- app_assoc. split; [reflexivity |].
      split; [| exact H3]. rewrite H1 in H2.
      rewrite !length_app in H2. rewrite !length_app. simpl in *. lia.
    + destruct (IH acc) as (H1 & H2 & H3).
      destruct (GUI.enumerate_devices devices acc) as [result log].
      simpl in *. split; [exact H1 |]. split; [lia |].
      constructor; [reflexivity | exact H3].
Qed.

(** X13: [get_dlls_from_registry] lists exactly the devices whose key opens,
    holds a [Name] and holds a [FunctionLibrary] that is a string, as
    ([Name], "J2534_" + [FunctionLibrary]); every other subkey costs one
    error record and nothing else, so that entries and records together
    are as many as the subkeys.  Without the base key the list is empty and
    one warning is logged. *)
Theorem get_dlls_from_registry_entries
    (devices : list (option (gmap string GUI.value))) :
  (forall n spec,
     (n, spec) ∈ fst (GUI.get_dlls_from_registry (Some devices)) <->
     exists key lib,
       Some key ∈ devices /\
       key !! "Name" = Some n /\
       key !! "FunctionLibrary" = Some (GUI.VStr lib) /\
       spec = text_lit "J2534_" ++ lib) /\
  (length (fst (GUI.get_dlls_from_registry (Some devices))) +
   length (snd (GUI.get_dlls_from_registry (Some devices))) =
   length devices)%nat /\
  Forall (fun r => fst r = GUI.LogError)
         (snd (GUI.get_dlls_from_registry (Some devices))) /\
  GUI.get_dlls_from_registry None =
  ([], [(GUI.LogWarning,
         "No J2534 DLLs found in HKLM PassThruSupport. Continuing anyway.")]).
Proof.
  unfold GUI.get_dlls_from_registry.
  destruct (enumerate_devices_spec devices []) as (H1 & H2 & H3).
  split; [| split; [exact H2 | split; [exact H3 | reflexivity]]].
  intros n spec. rewrite H1. cbn [app]. rewrite list_elem_of_omap. split.
  - intros (d & Hd & Hr).
    destruct (GUI.registry_entry d) as [e |] eqn:E; [| discriminate].
    injection Hr as ->. apply registry_entry_returns in E
      as (key & lib & -> & Hn & Hf & ->).
    exists key, lib. auto.
  - intros (key & lib & Hd & Hn & Hf & ->).
    exists (Some key). split; [exact Hd |].
    assert (GUI.registry_entry (Some key) =
            GUI.Returns (n, text_lit "J2534_" ++ lib)) as ->
      by (apply registry_entry_returns; exists key, lib; auto).
    reflexivity.
Qed.

Lemma fold_left_append {A B} (f : A -> B) (l : list A) (init : list B) :
  fold_left (fun acc x => acc ++ [f x]) l init = init ++ map f l.
Proof.
  revert init. induction l as [| x l IH]; intros init.
  - simpl. symmetry. apply app_nil_r.
  - simpl. rewrite IH, <- app_assoc. reflexivity.
Qed.

Lemma poll_interfaces_parts (platform : string)
    (registry : option (list (option (gmap string GUI.value))))
    (comports : list GUI.port_info) :
  fst (GUI.poll_interfaces platform registry comports) =
  (if bool_decide (platform = "win32")
   then fst (GUI.get_dlls_from_registry registry) else []) ++
  (if bool_decide (platform = "linux") then GUI.socketcan_ports else []) ++
  map (fun port =>
         (GUI.VStr (GUI.name port ++ text_lit " : " ++ GUI.description port),
          text_lit "USBISOTP_" ++ GUI.device port)) comports.
Proof.
  unfold GUI.poll_interfaces.
  destruct (bool_decide (platform = "win32")).
  - destruct (GUI.get_dlls_from_registry registry) as [dlls log].
    cbn [fst]. rewrite fold_left_append.
    destruct (bool_decide (platform = "linux"));
      rewrite <- ?app_assoc; reflexivity.
  - cbn [fst]. rewrite fold_left_append.
    destruct (bool_decide (platform = "linux")); reflexivity.
Qed.

Lemma get_dlls_member (registry : option (list (option (gmap string GUI.value))))
    (n : GUI.value) (spec : text) :
  (n, spec) ∈ fst (GUI.get_dlls_from_registry registry) ->
  exists lib, spec = text_lit "J2534_" ++ lib.
Proof.
  destruct registry as [devices |]; cbn [GUI.get_dlls_from_registry fst].
  - destruct (enumerate_devices_spec devices []) as (-> & _ & _). cbn [app].
    intros H. apply list_elem_of_omap in H as (d & _ & Hr).
    destruct (GUI.registry_entry d) as [e |] eqn:E; [| discriminate].
    injection Hr as ->.
    apply registry_entry_returns in E as (key & lib & _ & _ & _ & ->).
    exists lib. reflexivity.
  - intros H. apply elem_of_nil in H. destruct H.
Qed.

Lemma no_underscore_J2534 : GUI.UNDERSCORE ∉ text_lit "J2534".
Proof.
  vm_compute. intros H.
  repeat (apply elem_of_cons in H as [H | H]; [discriminate |]).
  apply elem_of_nil in H. exact H.
Qed.

Lemma no_underscore_USBISOTP : GUI.UNDERSCORE ∉ text_lit "USBISOTP".
Proof.
  vm_compute. intros H.
  repeat (apply elem_of_cons in H as [H | H]; [discriminate |]).
  apply elem_of_nil in H. exact H.
Qed.

(** X14: Every specifier that [poll_interfaces] returns can be taken apart by
    [split_interface_name]: it yields one of the three backends and a rest
    (the library, the CAN channel, the serial device), whatever underscores
    the rest contains. *)
Theorem poll_interfaces_specifiers (platform : string)
    (registry : option (list (option (gmap string GUI.value))))
    (comports : list GUI.port_info) (n : GUI.value) (spec : text) :
  (n, spec) ∈ fst (GUI.poll_interfaces platform registry comports) ->
  exists backend rest,
    GUI.split_interface_name spec = GUI.Returns (backend, Some rest) /\
    spec = backend ++ GUI.UNDERSCORE :: rest /\
    backend ∈ [text_lit "J2534"; text_lit "SocketCAN"; text_lit "USBISOTP"].
Proof.
  rewrite poll_interfaces_parts, !elem_of_app. intros [H | [H | H]].
  - destruct (bool_decide (platform = "win32"));
      [| apply elem_of_nil in H; destruct H].
    apply get_dlls_member in H as [lib ->].
    exists (text_lit "J2534"), lib.
    split; [exact (split_interface_name_cut (text_lit "J2534") lib
                     no_underscore_J2534) |].
    split; [reflexivity |]. apply elem_of_cons. left. reflexivity.
  - destruct (bool_decide (platform = "linux"));
      [| apply elem_of_nil in H; destruct H].
    apply list_elem_of_singleton in H. injection H as -> ->.
    exists (text_lit "SocketCAN"), (text_lit "can0").
    split; [vm_compute; reflexivity |]. split; [reflexivity |].
    apply elem_of_cons. right. apply elem_of_cons. left. reflexivity.
  - apply list_elem_of_In, in_map_iff in H as (port & Hp & _).
    injection Hp as <- <-.
    exists (text_lit "USBISOTP"), (GUI.device port).
    split; [exact (split_interface_name_cut (text_lit "USBISOTP")
                     (GUI.device port) no_underscore_USBISOTP) |].
    split; [reflexivity |].
    apply elem_of_cons. right. apply elem_of_cons. right.
    apply elem_of_cons. left. reflexivity.
Qed.

(** X15: Each serial port gives one entry, "name : description" with the
    specifier "USBISOTP_" + device, in the order of the ports and after the
    entries of the platform: the SocketCAN entry on Linux, the registry's
    on Windows, none elsewhere.  Off Windows the registry is not read and
    nothing is logged. *)
Theorem poll_interfaces_serial_ports (platform : string)
    (registry : option (list (option (gmap string GUI.value))))
    (comports : list GUI.port_info) :
  exists front,
    fst (GUI.poll_interfaces platform registry comports) =
      front ++
      map (fun port =>
             (GUI.VStr (GUI.name port ++ text_lit " : " ++ GUI.description port),
              text_lit "USBISOTP_" ++ GUI.device port)) comports /\
    (platform = "linux" -> front = GUI.socketcan_ports) /\
    (platform = "win32" -> front = fst (GUI.get_dlls_from_registry registry)) /\
    (platform <> "linux" -> platform <> "win32" -> front = []) /\
    (platform <> "win32" ->
     snd (GUI.poll_interfaces platform registry comports) = []).
Proof.
  rewrite poll_interfaces_parts. unfold GUI.poll_interfaces.
  eexists. split; [rewrite app_assoc; reflexivity |].
  destruct (decide (platform = "win32")) as [-> | Hw].
  - rewrite bool_decide_eq_true_2 by reflexivity.
    rewrite (bool_decide_eq_false_2 ("win32" = "linux")) by discriminate.
    rewrite app_nil_r.
    split; [discriminate |]. split; [reflexivity |].
    split; intros; contradiction.
  - rewrite (bool_decide_eq_false_2 _ Hw).
    destruct (decide (platform = "linux")) as [-> | Hl].
    + rewrite bool_decide_eq_true_2 by reflexivity.
      split; [reflexivity |]. split; [discriminate |].
      split; [intros; contradiction | reflexivity].
    + rewrite (bool_decide_eq_false_2 _ Hl).
      split; [intros; contradiction |]. split; [intros; contradiction |].
      split; reflexivity.
Qed.

Lemma poll_interfaces_specifiers_witness :
  exists backend rest,
    GUI.split_interface_name (text_lit "USBISOTP_/dev/tty_USB0") =
      GUI.Returns (backend, Some rest) /\
    text_lit "USBISOTP_/dev/tty_USB0" = backend ++ GUI.UNDERSCORE :: rest /\
    backend ∈ [text_lit "J2534"; text_lit "SocketCAN"; text_lit "USBISOTP"].
Proof.
  apply (poll_interfaces_specifiers "win32" GUI.sample_registry [GUI.sample_port]
           (GUI.VStr (text_lit "ttyUSB0 : A0 bridge"))
           (text_lit "USBISOTP_/dev/tty_USB0")).
  vm_compute. apply elem_of_cons. right. apply elem_of_cons. left. reflexivity.
Defined.

Example poll_interfaces_sample :
  GUI.poll_interfaces "win32" GUI.sample_registry [GUI.sample_port] =
  ([ (GUI.VStr (text_lit "Tactrix OpenPort 2.0"), text_lit "J2534_C:/op20pt32.dll");
     (GUI.VStr (text_lit "ttyUSB0 : A0 bridge"), text_lit "USBISOTP_/dev/tty_USB0") ],
   [ (GUI.LogError,
      "Found a J2534 interface, but could not enumerate the registry entry. Continuing.");
     (GUI.LogError,
      "Found a J2534 interface, but could not enumerate the registry entry. Continuing.") ]).
Proof. vm_compute. reflexivity. Qed.

(** ** Start-up options *)

Section StartUp.

Variable logs_dir : text.
Variable platform : string.
Variable registry : option (list (option (gmap string GUI.value))).
Variable comports : list GUI.port_info.

Lemma default_interface :
  GUI.getitem (GUI.default_options logs_dir) (text_lit "interface") =
  GUI.Returns (GUI.JString []).
Proof. vm_compute. reflexivity. Qed.

(** What [MainUI_init] does once the options are in hand. *)
Lemma MainUI_init_loaded (document : GUI.json) :
  GUI.MainUI_init logs_dir (GUI.Json document) platform registry comports =
  let interfaces := fst (GUI.poll_interfaces platform registry comports) in
  let log := snd (GUI.poll_interfaces platform registry comports) in
  match GUI.bind_outcome (GUI.getitem document (text_lit "interface")) GUI.len with
  | GUI.Raises e => (GUI.Raises e, GUI.Json document, log)
  | GUI.Returns 0%nat =>
      match interfaces with
      | [] => (GUI.Returns document, GUI.Json document, log)
      | first :: _ =>
          match GUI.setitem document (text_lit "interface")
                  (GUI.JString (snd first)) with
          | GUI.Returns options => (GUI.Returns options, GUI.Json options, log)
          | GUI.Raises e => (GUI.Raises e, GUI.Json document, log)
          end
      end
  | GUI.Returns (S _) => (GUI.Returns document, GUI.Json document, log)
  end.
Proof.
  unfold GUI.MainUI_init.
  destruct (GUI.poll_interfaces platform registry comports) as [interfaces log].
  cbn [fst snd app].
  destruct (GUI.bind_outcome (GUI.getitem document (text_lit "interface")) GUI.len)
    as [[| k] | e]; cbn [Nat.eqb]; try reflexivity.
  destruct interfaces as [| first rest]; reflexivity.
Qed.

Lemma MainUI_init_fallback (config : GUI.config_file) :
  config = GUI.NoFile \/ config = GUI.NotJson ->
  GUI.MainUI_init logs_dir config platform registry comports =
  let '(result, file, log) :=
    GUI.MainUI_init logs_dir (GUI.Json (GUI.default_options logs_dir))
      platform registry comports in
  (result, file, (GUI.LogWarning, "No config file present, creating one") :: log).
Proof.
  intros [-> | ->]; unfold GUI.MainUI_init, GUI.write_config;
    destruct (GUI.poll_interfaces platform registry comports) as [interfaces log];
    cbn [app];
    destruct (GUI.bind_outcome
                (GUI.getitem (GUI.default_options logs_dir) (text_lit "interface"))
                GUI.len) as [n | e]; try reflexivity;
    destruct (n =? 0)%nat; try reflexivity;
    destruct (0 <? length interfaces)%nat; try reflexivity;
    destruct (GUI.bind_outcome (GUI.index interfaces 0)
                (fun first => GUI.setitem (GUI.default_options logs_dir)
                                (text_lit "interface") (GUI.JString (snd first))));
    reflexivity.
Qed.

End StartUp.


(** X16: Whenever the options phase of [MainUI.__init__] returns, the
    configuration file holds exactly the options it returns: what was
    loaded and left alone, or what was last written. *)
Theorem MainUI_init_config_in_sync (logs_dir : text) (config : GUI.config_file)
    (platform : string)
    (registry : option (list (option (gmap string GUI.value))))
    (comports : list GUI.port_info)
    (options : GUI.json) (file : GUI.config_file) (log : list GUI.record) :
  GUI.MainUI_init logs_dir config platform registry comports =
    (GUI.Returns options, file, log) ->
  file = GUI.Json options.
Proof.
  assert (forall document options file log,
            GUI.MainUI_init logs_dir (GUI.Json document) platform registry comports
            = (GUI.Returns options, file, log) -> file = GUI.Json options) as Hloaded.
  { intros document o f l. rewrite MainUI_init_loaded. cbv zeta.
    destruct (GUI.bind_outcome (GUI.getitem document (text_lit "interface")) GUI.len)
      as [[| k] | e]; [| congruence | discriminate].
    destruct (fst (GUI.poll_interfaces platform registry comports))
      as [| first rest]; [congruence |].
    destruct (GUI.setitem document (text_lit "interface") (GUI.JString (snd first)));
      [congruence | discriminate]. }
  destruct config as [| | document].
  - rewrite MainUI_init_fallback by (left; reflexivity).
    destruct (GUI.MainUI_init logs_dir (GUI.Json (GUI.default_options logs_dir))
                platform registry comports) as [[r f] l] eqn:E.
    intros [= -> -> _]. apply (Hloaded _ _ _ _ E).
  - rewrite MainUI_init_fallback by (right; reflexivity).
    destruct (GUI.MainUI_init logs_dir (GUI.Json (GUI.default_options logs_dir))
                platform registry comports) as [[r f] l] eqn:E.
    intros [= -> -> _]. apply (Hloaded _ _ _ _ E).
  - apply Hloaded.
Qed.



(** X18: A stored selection is never overwritten: when the loaded document has
    an "interface" of non-zero length, the document is returned as it is
    and the file is not written, whatever interfaces are found. *)
Theorem MainUI_init_keeps_selection (logs_dir : text) (platform : string)
    (registry : option (list (option (gmap string GUI.value))))
    (comports : list GUI.port_info)
    (document selected : GUI.json) (k : nat) :
  GUI.getitem document (text_lit "interface") = GUI.Returns selected ->
  GUI.len selected = GUI.Returns (S k) ->
  GUI.MainUI_init logs_dir (GUI.Json document) platform registry comports =
  (GUI.Returns document, GUI.Json document,
   snd (GUI.poll_interfaces platform registry comports)).
Proof.
  intros Hg Hl. rewrite MainUI_init_loaded, Hg. cbn [GUI.bind_outcome].
  rewrite Hl. reflexivity.
Qed.

Lemma MainUI_init_keeps_selection_witness :
  GUI.MainUI_init (text_lit "/opt/vwflash/logs")
    (GUI.Json (GUI.stored_options (text_lit "J2534_old.dll"))) "linux"
    GUI.sample_registry [GUI.sample_port] =
  (GUI.Returns (GUI.stored_options (text_lit "J2534_old.dll")),
   GUI.Json (GUI.stored_options (text_lit "J2534_old.dll")),
   snd (GUI.poll_interfaces "linux" GUI.sample_registry [GUI.sample_port])).
Proof.
  apply (MainUI_init_keeps_selection (text_lit "/opt/vwflash/logs") "linux"
           GUI.sample_registry [GUI.sample_port]
           (GUI.stored_options (text_lit "J2534_old.dll"))
           (GUI.JString (text_lit "J2534_old.dll")) 12).
  - vm_compute. reflexivity.
  - vm_compute. reflexivity.
Defined.



Lemma MainUI_init_config_in_sync_witness :
  GUI.MainUI_init (text_lit "/opt/vwflash/logs") (GUI.Json (GUI.stored_options []))
    "linux" None [] =
  (GUI.Returns (GUI.stored_options (text_lit "SocketCAN_can0")),
   GUI.Json (GUI.stored_options (text_lit "SocketCAN_can0")), []) /\
  GUI.Json (GUI.stored_options (text_lit "SocketCAN_can0")) =
  GUI.Json (GUI.stored_options (text_lit "SocketCAN_can0")).
Proof.
  split; [vm_compute; reflexivity |].
  apply (MainUI_init_config_in_sync (text_lit "/opt/vwflash/logs")
           (GUI.Json (GUI.stored_options [])) "linux" None []
           (GUI.stored_options (text_lit "SocketCAN_can0"))
           (GUI.Json (GUI.stored_options (text_lit "SocketCAN_can0"))) []).
  vm_compute. reflexivity.
Defined.




Example MainUI_init_unusable_documents :
  fst (fst (GUI.MainUI_init [] (GUI.Json (GUI.JArray [])) "linux" None []))
    = GUI.Raises GUI.TypeError /\
  fst (fst (GUI.MainUI_init [] (GUI.Json (GUI.JObject ∅)) "linux" None []))
    = GUI.Raises (GUI.KeyError (text_lit "interface")) /\
  fst (fst (GUI.MainUI_init []
              (GUI.Json (GUI.JObject {[ text_lit "interface" := GUI.JNull ]}))
              "linux" None []))
    = GUI.Raises GUI.TypeError.
Proof. repeat split; vm_compute; reflexivity. Qed.

(** ** The file table *)















(** In the sample folder "b.bin" is the newest; "a.bin" and "c.frf" share
    a modification time and keep the order of the listing. *)
Example update_bin_listing_sample :
  GUI.rowData (snd (GUI.update_bin_listing GUI.sample_os
                      (GUI.sample_ui (text_lit "/tunes")))) =
  [ (text_lit "b.bin", text_lit "1970-01-01 00:00:05");
    (text_lit "a.bin", text_lit "1970-01-01 00:00:01");
    (text_lit "c.frf", text_lit "1970-01-01 00:00:01") ].
Proof. vm_compute. reflexivity. Qed.


Example update_bin_listing_unreadable :
  fst (GUI.update_bin_listing GUI.sample_os (GUI.sample_ui (text_lit "/gone"))) =
  GUI.Raises GUI.OSError.
Proof. vm_compute. reflexivity. Qed.

(** ** Start-up *)

Lemma default_tune_folder (logs_dir : text) :
  GUI.getitem (GUI.default_options logs_dir) (text_lit "tune_folder") =
  GUI.Returns (GUI.JString []).
Proof. vm_compute. reflexivity. Qed.

Lemma getitem_setitem_other (document options v : GUI.json) (key other : text) :
  key <> other ->
  GUI.setitem document key v = GUI.Returns options ->
  GUI.getitem options other = GUI.getitem document other.
Proof.
  intros Hne. destruct document; try discriminate.
  intros [= <-]. cbn [GUI.getitem]. rewrite lookup_insert_ne by exact Hne.
  reflexivity.
Qed.

(** X24: After a first start [on_startup] does nothing: the default
    "tune_folder" is empty, so no folder is listed, the operating system is
    not asked anything and the state is left as it is. *)
Theorem on_startup_after_first_start (logs_dir : text)
    (config : GUI.config_file) (platform : string)
    (registry : option (list (option (gmap string GUI.value))))
    (comports : list GUI.port_info)
    (options : GUI.json) (file : GUI.config_file) (log : list GUI.record)
    (os : GUI.os_view) (folder : GUI.json) (rows : list (text * text)) :
  config = GUI.NoFile \/ config = GUI.NotJson ->
  GUI.MainUI_init logs_dir config platform registry comports =
    (GUI.Returns options, file, log) ->
  GUI.on_startup os
    {| GUI.options := options; GUI.current_folder_path := folder;
       GUI.rowData := rows; GUI.config := file |} =
  (GUI.Returns tt,
   {| GUI.options := options; GUI.current_folder_path := folder;
      GUI.rowData := rows; GUI.config := file |}).
Proof.
  intros Hc. rewrite (MainUI_init_fallback _ _ _ _ _ Hc), MainUI_init_loaded.
  rewrite default_interface. cbn [GUI.bind_outcome GUI.len length]. cbv zeta.
  assert (GUI.getitem options (text_lit "tune_folder") =
          GUI.Returns (GUI.JString []) ->
          GUI.on_startup os
            {| GUI.options := options; GUI.current_folder_path := folder;
               GUI.rowData := rows; GUI.config := file |} =
          (GUI.Returns tt,
           {| GUI.options := options; GUI.current_folder_path := folder;
              GUI.rowData := rows; GUI.config := file |})) as Hdone.
  { intros Hg. unfold GUI.on_startup. cbn [GUI.options]. rewrite Hg. reflexivity. }
  destruct (fst (GUI.poll_interfaces platform registry comports))
    as [| first rest].
  - intros [= <- <- _]. apply Hdone, default_tune_folder.
  - destruct (GUI.setitem (GUI.default_options logs_dir) (text_lit "interface")
                (GUI.JString (snd first))) as [o |] eqn:Es; [| discriminate].
    intros [= <- <- _]. apply Hdone.
    rewrite (getitem_setitem_other _ _ _ (text_lit "interface")
               (text_lit "tune_folder") ltac:(discriminate) Es).
    apply default_tune_folder.
Qed.

Lemma on_startup_after_first_start_witness :
  exists options file log,
    GUI.MainUI_init (text_lit "/opt/vwflash/logs") GUI.NoFile "linux" None
      [GUI.sample_port] = (GUI.Returns options, file, log) /\
    GUI.on_startup GUI.sample_os
      {| GUI.options := options; GUI.current_folder_path := GUI.JNull;
         GUI.rowData := []; GUI.config := file |} =
    (GUI.Returns tt,
     {| GUI.options := options; GUI.current_folder_path := GUI.JNull;
        GUI.rowData := []; GUI.config := file |}).
Proof.
  eexists _, _, _. split; [vm_compute; reflexivity |].
  apply (on_startup_after_first_start (text_lit "/opt/vwflash/logs") GUI.NoFile
           "linux" None [GUI.sample_port] _ _
           [(GUI.LogWarning, "No config file present, creating one")]
           GUI.sample_os GUI.JNull []).
  - left. reflexivity.
  - vm_compute. reflexivity.
Defined.

(** X25: A stored document that selects an interface but has no "tune_folder"
    passes [MainUI.__init__] untouched and then makes [on_startup] raise
    [KeyError] for "tune_folder", with nothing listed and nothing
    written. *)
Theorem on_startup_missing_tune_folder (logs_dir : text) (platform : string)
    (registry : option (list (option (gmap string GUI.value))))
    (comports : list GUI.port_info)
    (members : gmap text GUI.json) (selected : GUI.json) (k : nat)
    (os : GUI.os_view) (folder : GUI.json) (rows : list (text * text)) :
  members !! text_lit "interface" = Some selected ->
  GUI.len selected = GUI.Returns (S k) ->
  members !! text_lit "tune_folder" = None ->
  GUI.MainUI_init logs_dir (GUI.Json (GUI.JObject members)) platform registry
    comports =
  (GUI.Returns (GUI.JObject members), GUI.Json (GUI.JObject members),
   snd (GUI.poll_interfaces platform registry comports)) /\
  GUI.on_startup os
    {| GUI.options := GUI.JObject members; GUI.current_folder_path := folder;
       GUI.rowData := rows; GUI.config := GUI.Json (GUI.JObject members) |} =
  (GUI.Raises (GUI.KeyError (text_lit "tune_folder")),
   {| GUI.options := GUI.JObject members; GUI.current_folder_path := folder;
      GUI.rowData := rows; GUI.config := GUI.Json (GUI.JObject members) |}).
Proof.
  intros Hi Hl Ht. split.
  - rewrite MainUI_init_loaded. cbn [GUI.getitem]. rewrite Hi.
    cbn [GUI.bind_outcome]. rewrite Hl. reflexivity.
  - unfold GUI.on_startup. cbn [GUI.options GUI.getitem]. rewrite Ht.
    reflexivity.
Qed.

Lemma on_startup_missing_tune_folder_witness :
  GUI.MainUI_init [] (GUI.Json (GUI.JObject
      {[ text_lit "interface" := GUI.JString (text_lit "J2534_x.dll") ]}))
    "win32" GUI.sample_registry [] =
  (GUI.Returns (GUI.JObject
      {[ text_lit "interface" := GUI.JString (text_lit "J2534_x.dll") ]}),
   GUI.Json (GUI.JObject
      {[ text_lit "interface" := GUI.JString (text_lit "J2534_x.dll") ]}),
   snd (GUI.poll_interfaces "win32" GUI.sample_registry [])) /\
  GUI.on_startup GUI.sample_os
    {| GUI.options := GUI.JObject
         {[ text_lit "interface" := GUI.JString (text_lit "J2534_x.dll") ]};
       GUI.current_folder_path := GUI.JNull; GUI.rowData := [];
       GUI.config := GUI.Json (GUI.JObject
         {[ text_lit "interface" := GUI.JString (text_lit "J2534_x.dll") ]}) |} =
  (GUI.Raises (GUI.KeyError (text_lit "tune_folder")),
   {| GUI.options := GUI.JObject
        {[ text_lit "interface" := GUI.JString (text_lit "J2534_x.dll") ]};
      GUI.current_folder_path := GUI.JNull; GUI.rowData := [];
      GUI.config := GUI.Json (GUI.JObject
        {[ text_lit "interface" := GUI.JString (text_lit "J2534_x.dll") ]}) |}).
Proof.
  apply (on_startup_missing_tune_folder [] "win32" GUI.sample_registry []
           {[ text_lit "interface" := GUI.JString (text_lit "J2534_x.dll") ]}
           (GUI.JString (text_lit "J2534_x.dll")) 10 GUI.sample_os GUI.JNull []).
  - vm_compute. reflexivity.
  - vm_compute. reflexivity.
  - vm_compute. reflexivity.
Defined.
